(** * The offscreen keepalive page of brotab's Chrome extension

    A shallow embedding of [brotab/extension/chrome/offscreen.js]: the page
    opens a long-lived port to the service worker, pings it every 20 seconds
    and reconnects when the port is disconnected or cannot be opened.

    The page's code is three closures ([connectSW], the interval callback and
    the [onDisconnect] listener).  They are embedded as computations of a
    small monad that threads the page's state and carries JavaScript
    exceptions; the browser (timers, ports, console, event loop) is embedded
    as the primitives those computations call and as the [dispatch] function
    that runs one task of the event loop. *)

From Stdlib Require Import ZArith List String Bool Arith Lia.
Import ListNotations.
Local Open Scope string_scope.
Local Open Scope list_scope.
Local Open Scope Z_scope.

(** ** Data *)

(** Values and object literals, with the keys in the order they are written. *)
Inductive value : Type :=
| VStr (s : string)
| VNum (n : Z).

Definition object : Type := list (string * value).

(** Ports and timers are identified by the handles the browser returns. *)
Definition port : Type := nat.
Definition timer_id : Type := nat.

Inductive exn : Type :=
| TypeError (msg : string)
| PlatformError (msg : string).

(** What the browser answers to a call that may throw
    ([chrome.runtime.connect], [port.postMessage]). *)
Inductive outcome : Type :=
| Succeeds
| Throws (e : exn).

(** The two functions the page hands to [setInterval] and [setTimeout]. *)
Inductive callback : Type :=
| PingTick
| ConnectSW.

(** The listener closure registered on [swPort.onDisconnect]; it captures the
    [const pingInterval] of the [connectSW] activation that created it. *)
Inductive listener : Type :=
| OnDisconnect (pingInterval : timer_id).

Definition captured (l : listener) : timer_id :=
  match l with OnDisconnect i => i end.

(** An entry of the window's list of active timers. *)
Inductive timer : Type :=
| Timeout (id : timer_id) (cb : callback) (due : Z)
| Interval (id : timer_id) (cb : callback) (period : Z) (due : Z).

Definition timer_ident (t : timer) : timer_id :=
  match t with Timeout i _ _ => i | Interval i _ _ _ => i end.

Definition timer_due (t : timer) : Z :=
  match t with Timeout _ _ d => d | Interval _ _ _ d => d end.

Definition is_interval (t : timer) : bool :=
  match t with Interval _ _ _ _ => true | Timeout _ _ _ => false end.

Definition is_timeout (t : timer) : bool :=
  match t with Timeout _ _ _ => true | Interval _ _ _ _ => false end.

Inductive level : Type :=
| Log
| Warn
| Error.

(** The calls the page makes on the browser, as they are recorded. *)
Inductive call : Type :=
| Connect (name : string) (o : outcome)
| Console (l : level) (text : string) (detail : option exn)
| SetInterval (id : timer_id) (period : Z)
| ClearInterval (id : timer_id)
| SetTimeout (id : timer_id) (delay : Z)
| AddListener (p : port) (l : listener)
| PostMessage (p : port) (m : object) (o : outcome).

(** The page and the part of the browser it talks to. *)
Record state : Type := mkState {
  clock : Z;                          (* Date.now(), in milliseconds *)
  swPort : option port;               (* let swPort = null *)
  timers : list timer;                (* active timers, oldest first *)
  next_timer : timer_id;              (* next handle of setTimeout/setInterval *)
  next_port : port;                   (* next handle of runtime.connect *)
  listeners : list (port * listener); (* onDisconnect listeners, oldest first *)
  closed : list port;                 (* ports whose disconnect was dispatched *)
  trace : list (Z * call);            (* every call, with the time it was made *)
  uncaught : list exn                 (* exceptions that escaped a task *)
}.

Definition initial (t0 : Z) : state :=
  mkState t0 None [] 1%nat 0%nat [] [] [] [].

Definition set_clock (t : Z) (s : state) : state :=
  mkState t (swPort s) (timers s) (next_timer s) (next_port s)
          (listeners s) (closed s) (trace s) (uncaught s).

Definition set_swPort (p : option port) (s : state) : state :=
  mkState (clock s) p (timers s) (next_timer s) (next_port s)
          (listeners s) (closed s) (trace s) (uncaught s).

Definition set_timers (ts : list timer) (s : state) : state :=
  mkState (clock s) (swPort s) ts (next_timer s) (next_port s)
          (listeners s) (closed s) (trace s) (uncaught s).

Definition set_next_timer (n : timer_id) (s : state) : state :=
  mkState (clock s) (swPort s) (timers s) n (next_port s)
          (listeners s) (closed s) (trace s) (uncaught s).

Definition set_next_port (n : port) (s : state) : state :=
  mkState (clock s) (swPort s) (timers s) (next_timer s) n
          (listeners s) (closed s) (trace s) (uncaught s).

Definition set_listeners (ls : list (port * listener)) (s : state) : state :=
  mkState (clock s) (swPort s) (timers s) (next_timer s) (next_port s)
          ls (closed s) (trace s) (uncaught s).

Definition set_closed (ps : list port) (s : state) : state :=
  mkState (clock s) (swPort s) (timers s) (next_timer s) (next_port s)
          (listeners s) ps (trace s) (uncaught s).

Definition set_trace (tr : list (Z * call)) (s : state) : state :=
  mkState (clock s) (swPort s) (timers s) (next_timer s) (next_port s)
          (listeners s) (closed s) tr (uncaught s).

Definition set_uncaught (es : list exn) (s : state) : state :=
  mkState (clock s) (swPort s) (timers s) (next_timer s) (next_port s)
          (listeners s) (closed s) (trace s) es.

(** ** Computations: state and exceptions

    A statement either completes normally or throws; what it did to the
    state before throwing stays done. *)
Inductive completion (A : Type) : Type :=
| Normal (a : A)
| Abrupt (e : exn).

Arguments Normal {A} a.
Arguments Abrupt {A} e.

Definition js (A : Type) : Type := state -> completion A * state.

Definition ret {A : Type} (a : A) : js A := fun s => (Normal a, s).

Definition throw {A : Type} (e : exn) : js A := fun s => (Abrupt e, s).

Definition bind {A B : Type} (m : js A) (k : A -> js B) : js B :=
  fun s =>
    match m s with
    | (Normal a, s') => k a s'
    | (Abrupt e, s') => (Abrupt e, s')
    end.

(** [try { body } catch (e) { handler }] *)
Definition try_catch {A : Type} (body : js A) (handler : exn -> js A) : js A :=
  fun s =>
    match body s with
    | (Normal a, s') => (Normal a, s')
    | (Abrupt e, s') => handler e s'
    end.

Declare Scope js_scope.
Delimit Scope js_scope with js.
Notation "x <- m ;; k" := (bind m (fun x => k))
  (at level 61, m at next level, right associativity) : js_scope.
Notation "m ;; k" := (bind m (fun _ => k))
  (at level 61, right associativity) : js_scope.
Local Open Scope js_scope.

Definition get {A : Type} (f : state -> A) : js A := fun s => (Normal (f s), s).

Definition modify (f : state -> state) : js unit := fun s => (Normal tt, f s).

(** ** The browser's primitives *)

Definition record (c : call) : js unit :=
  modify (fun s => set_trace (trace s ++ [(clock s, c)]) s).

(** [Date.now()] *)
Definition Date_now : js Z := get clock.

(** [console.log], [console.warn], [console.error] *)
Definition console (l : level) (text : string) (detail : option exn) : js unit :=
  record (Console l text detail).

(** [chrome.runtime.connect({ name })]: a fresh port, or an exception. *)
Definition runtime_connect (name : string) (o : outcome) : js port :=
  record (Connect name o) ;;
  match o with
  | Succeeds =>
      p <- get next_port ;;
      modify (fun s => set_next_port (S p) s) ;;
      ret p
  | Throws e => throw e
  end.

Definition fresh_timer : js timer_id :=
  i <- get next_timer ;;
  modify (fun s => set_next_timer (S i) s) ;;
  ret i.

(** [setInterval(cb, period)]: first due one period from now. *)
Definition setInterval (cb : callback) (period : Z) : js timer_id :=
  i <- fresh_timer ;;
  record (SetInterval i period) ;;
  modify (fun s => set_timers (timers s ++ [Interval i cb period (clock s + period)]) s) ;;
  ret i.

(** [setTimeout(cb, delay)]: due one delay from now. *)
Definition setTimeout (cb : callback) (delay : Z) : js timer_id :=
  i <- fresh_timer ;;
  record (SetTimeout i delay) ;;
  modify (fun s => set_timers (timers s ++ [Timeout i cb (clock s + delay)]) s) ;;
  ret i.

Definition remove_timer (i : timer_id) (ts : list timer) : list timer :=
  filter (fun t => negb (Nat.eqb (timer_ident t) i)) ts.

(** [clearInterval(id)]: the handle leaves the list of active timers; a
    handle that is not in the list is ignored. *)
Definition clearInterval (i : timer_id) : js unit :=
  record (ClearInterval i) ;;
  modify (fun s => set_timers (remove_timer i (timers s)) s).

(** Member access on the value of a variable that may hold [null]. *)
Definition member (v : option port) : js port :=
  match v with
  | Some p => ret p
  | None => throw (TypeError "Cannot read properties of null")
  end.

(** [port.onDisconnect.addListener(l)] *)
Definition onDisconnect_addListener (p : port) (l : listener) : js unit :=
  record (AddListener p l) ;;
  modify (fun s => set_listeners (listeners s ++ [(p, l)]) s).

(** [port.postMessage(m)]: delivered, or an exception. *)
Definition postMessage (p : port) (m : object) (o : outcome) : js unit :=
  record (PostMessage p m o) ;;
  match o with
  | Succeeds => ret tt
  | Throws e => throw e
  end.

(** ** The page's code *)

(** The callback of [setInterval]:
    [try { swPort.postMessage({ type: 'ping', ts: Date.now() }); } catch (_) {}] *)
Definition ping_message (now : Z) : object :=
  [("type", VStr "ping"); ("ts", VNum now)].

Definition pingTick (o : outcome) : js unit :=
  try_catch
    (sw <- get swPort ;;
     p <- member sw ;;
     now <- Date_now ;;
     postMessage p (ping_message now) o)
    (fun _ => ret tt).

(** The listener of [swPort.onDisconnect]. *)
Definition onDisconnect (pingInterval : timer_id) : js unit :=
  clearInterval pingInterval ;;
  console Warn "[offscreen] Keepalive port disconnected" None ;;
  setTimeout ConnectSW 1000 ;;
  ret tt.

(** [function connectSW()]; [o] is what [chrome.runtime.connect] answers. *)
Definition connectSW (o : outcome) : js unit :=
  try_catch
    (p <- runtime_connect "bt-keepalive" o ;;
     modify (set_swPort (Some p)) ;;
     console Log "[offscreen] Connected keepalive port to service worker" None ;;
     pingInterval <- setInterval PingTick 20000 ;;
     sw <- get swPort ;;
     q <- member sw ;;
     onDisconnect_addListener q (OnDisconnect pingInterval))
    (fun e =>
       console Error "[offscreen] Failed to connect to SW" (Some e) ;;
       setTimeout ConnectSW 2000 ;;
       ret tt).

Definition callback_body (cb : callback) (o : outcome) : js unit :=
  match cb with
  | PingTick => pingTick o
  | ConnectSW => connectSW o
  end.

Definition listener_body (l : listener) : js unit :=
  match l with
  | OnDisconnect i => onDisconnect i
  end.

(** ** The event loop *)

(** One task: the computation runs to completion; an exception that escapes
    it is reported as uncaught. *)
Definition run_task (m : js unit) (s : state) : state :=
  match m s with
  | (Normal _, s') => s'
  | (Abrupt e, s') => set_uncaught (uncaught s' ++ [e]) s'
  end.

Fixpoint find_timer (i : timer_id) (ts : list timer) : option timer :=
  match ts with
  | [] => None
  | t :: ts' => if Nat.eqb (timer_ident t) i then Some t else find_timer i ts'
  end.

Definition rearm (i : timer_id) (due : Z) (ts : list timer) : list timer :=
  map (fun t =>
         match t with
         | Interval j cb period _ =>
             if Nat.eqb j i then Interval j cb period due else t
         | Timeout _ _ _ => t
         end) ts.

(** A timer fires: a timeout leaves the list, an interval is due again one
    period later; a handle that is not active runs nothing. *)
Definition fire (i : timer_id) (o : outcome) (s : state) : state :=
  match find_timer i (timers s) with
  | None => s
  | Some (Timeout _ cb _) =>
      run_task (callback_body cb o) (set_timers (remove_timer i (timers s)) s)
  | Some (Interval _ cb period _) =>
      run_task (callback_body cb o)
               (set_timers (rearm i (clock s + period) (timers s)) s)
  end.

Definition listeners_on (p : port) (ls : list (port * listener)) : list listener :=
  map snd (filter (fun pl => Nat.eqb (fst pl) p) ls).

Definition run_listeners (ls : list listener) (s : state) : state :=
  fold_left (fun s' l => run_task (listener_body l) s') ls s.

(** The port's disconnect event: every listener registered on it runs. *)
Definition disconnect (p : port) (s : state) : state :=
  run_listeners (listeners_on p (listeners s)) (set_closed (p :: closed s) s).

Inductive event : Type :=
| TimerFires (id : timer_id) (o : outcome)
| PortDisconnects (p : port).

Record timed : Type := At { when : Z; what : event }.

Definition dispatch (e : timed) (s : state) : state :=
  let s0 := set_clock (when e) s in
  match what e with
  | TimerFires i o => fire i o s0
  | PortDisconnects p => disconnect p s0
  end.

Definition run (es : list timed) (s : state) : state :=
  fold_left (fun s' e => dispatch e s') es s.

(** The page is loaded at [t0]: the last statement of the script calls
    [connectSW()]. *)
Definition boot (t0 : Z) (o : outcome) : state :=
  run_task (connectSW o) (initial t0).

(** ** What the browser guarantees

    Time does not go back, a timer never fires before it is due, and the
    disconnect event of a port is dispatched at most once, on a port that
    exists. *)
Definition is_closed (p : port) (s : state) : bool :=
  existsb (Nat.eqb p) (closed s).

Definition admissible (s : state) (e : timed) : bool :=
  (clock s <=? when e) &&
  match what e with
  | TimerFires i _ =>
      match find_timer i (timers s) with
      | None => true
      | Some t => timer_due t <=? when e
      end
  | PortDisconnects p => (p <? next_port s)%nat && negb (is_closed p s)
  end.

(** A timer that fires does so exactly when it is due. *)
Definition punctual (s : state) (e : timed) : bool :=
  match what e with
  | TimerFires i _ =>
      match find_timer i (timers s) with
      | None => true
      | Some t => timer_due t =? when e
      end
  | PortDisconnects _ => true
  end.

Fixpoint admissible_run (s : state) (es : list timed) : bool :=
  match es with
  | [] => true
  | e :: es' => admissible s e && admissible_run (dispatch e s) es'
  end.

(** States the page reaches when the browser keeps its guarantees. *)
Inductive reachable : state -> Prop :=
| reach_boot (t0 : Z) (o : outcome) : reachable (boot t0 o)
| reach_step (s : state) (e : timed) :
    reachable s -> admissible s e = true -> reachable (dispatch e s).

(** ** Observations *)

Definition heartbeat_timers (s : state) : list timer := filter is_interval (timers s).
Definition pending_retries (s : state) : list timer := filter is_timeout (timers s).

Definition is_post_on (p : port) (c : Z * call) : bool :=
  match snd c with
  | PostMessage q _ _ => Nat.eqb q p
  | _ => false
  end.

Definition is_connect (c : Z * call) : bool :=
  match snd c with
  | Connect _ _ => true
  | _ => false
  end.

Definition posts_on (p : port) (s : state) : list (Z * call) :=
  filter (is_post_on p) (trace s).

(** Listeners whose port has not been disconnected yet. *)
Definition live (cl : list port) (ls : list (port * listener)) : list (port * listener) :=
  filter (fun pl => negb (existsb (Nat.eqb (fst pl)) cl)) ls.

Definition live_listeners (s : state) : list (port * listener) :=
  live (closed s) (listeners s).

(** The two shapes of the page between tasks: a link with its heartbeat, or
    a retry that is pending. *)
Definition linked (s : state) : Prop :=
  exists p i due,
    timers s = [Interval i PingTick 20000 due] /\
    swPort s = Some p /\
    live_listeners s = [(p, OnDisconnect i)].

Definition waiting (s : state) : Prop :=
  exists i due,
    timers s = [Timeout i ConnectSW due] /\
    live_listeners s = [].

Definition steady (s : state) : Prop :=
  (forall q, In q (closed s) -> (q < next_port s)%nat) /\
  (linked s \/ waiting s).

(** ** The transitions of a steady page

    Under the browser's guarantees every task is one of six transitions:
    a heartbeat tick, a stale timer, a retry that opens a link, a retry that
    fails, the disconnection of the link, or the disconnection of a port
    nobody listens on. *)
Inductive transition (s : state) : timed -> state -> Prop :=
| tr_tick (p : port) (i : timer_id) (due t : Z) (o : outcome) :
    timers s = [Interval i PingTick 20000 due] ->
    swPort s = Some p ->
    live_listeners s = [(p, OnDisconnect i)] ->
    due <= t ->
    transition s (At t (TimerFires i o))
      (mkState t (Some p) [Interval i PingTick 20000 (t + 20000)]
         (next_timer s) (next_port s) (listeners s) (closed s)
         (trace s ++ [(t, PostMessage p (ping_message t) o)])
         (uncaught s))
| tr_stale (j : timer_id) (t : Z) (o : outcome) :
    find_timer j (timers s) = None ->
    transition s (At t (TimerFires j o)) (set_clock t s)
| tr_reconnect (i : timer_id) (due t : Z) :
    timers s = [Timeout i ConnectSW due] ->
    live_listeners s = [] ->
    due <= t ->
    transition s (At t (TimerFires i Succeeds))
      (mkState t (Some (next_port s))
         [Interval (next_timer s) PingTick 20000 (t + 20000)]
         (S (next_timer s)) (S (next_port s))
         (listeners s ++ [(next_port s, OnDisconnect (next_timer s))])
         (closed s)
         (trace s ++
            [(t, Connect "bt-keepalive" Succeeds);
             (t, Console Log "[offscreen] Connected keepalive port to service worker" None);
             (t, SetInterval (next_timer s) 20000);
             (t, AddListener (next_port s) (OnDisconnect (next_timer s)))])
         (uncaught s))
| tr_retry_fails (i : timer_id) (due t : Z) (e : exn) :
    timers s = [Timeout i ConnectSW due] ->
    live_listeners s = [] ->
    due <= t ->
    transition s (At t (TimerFires i (Throws e)))
      (mkState t (swPort s) [Timeout (next_timer s) ConnectSW (t + 2000)]
         (S (next_timer s)) (next_port s) (listeners s) (closed s)
         (trace s ++
            [(t, Connect "bt-keepalive" (Throws e));
             (t, Console Error "[offscreen] Failed to connect to SW" (Some e));
             (t, SetTimeout (next_timer s) 2000)])
         (uncaught s))
| tr_link_lost (p : port) (i : timer_id) (due t : Z) :
    timers s = [Interval i PingTick 20000 due] ->
    swPort s = Some p ->
    live_listeners s = [(p, OnDisconnect i)] ->
    transition s (At t (PortDisconnects p))
      (mkState t (Some p) [Timeout (next_timer s) ConnectSW (t + 1000)]
         (S (next_timer s)) (next_port s) (listeners s) (p :: closed s)
         (trace s ++
            [(t, ClearInterval i);
             (t, Console Warn "[offscreen] Keepalive port disconnected" None);
             (t, SetTimeout (next_timer s) 1000)])
         (uncaught s))
| tr_unheard (p : port) (t : Z) :
    listeners_on p (live_listeners s) = [] ->
    transition s (At t (PortDisconnects p))
      (set_closed (p :: closed s) (set_clock t s)).

(** Timer handles are never handed out twice, and the handle a listener
    captured is never the handle of a pending timeout. *)
Definition captured_of (pl : port * listener) : timer_id := captured (snd pl).

Definition well_formed (s : state) : Prop :=
  (forall tm, In tm (timers s) -> (timer_ident tm < next_timer s)%nat) /\
  (forall pl, In pl (listeners s) -> (captured_of pl < next_timer s)%nat) /\
  NoDup (map captured_of (listeners s)) /\
  (forall tm pl, In tm (timers s) -> is_timeout tm = true ->
                 In pl (listeners s) -> captured_of pl <> timer_ident tm).

(** No attempt to open a link is made before the pending retry is due. *)
Definition calm (D : Z) (s : state) : Prop :=
  D - 1000 <= clock s /\
  forall tm, In tm (timers s) -> is_timeout tm = true -> D <= timer_due tm.

Definition not_before (D : Z) (c : Z * call) : Prop :=
  is_connect c = true -> D <= fst c.



Fixpoint punctual_run (s : state) (es : list timed) : bool :=
  match es with
  | [] => true
  | e :: es' => punctual s e && punctual_run (dispatch e s) es'
  end.




(** The payload as the specification words it. *)
Definition spec_ping_message (now : Z) : object :=
  [("kind", VStr "ping"); ("timestamp", VNum now)].

(** Every message posted so far is the payload [f] builds from the time of
    the call. *)
Definition heartbeat_payloads (f : Z -> object) (s : state) : Prop :=
  Forall (fun c => match snd c with
                   | PostMessage _ m _ => m = f (fst c)
                   | _ => True
                   end) (trace s).

(** ** Further observations on runs *)

(** The port the page opened last, if it has opened one. *)
Definition latest_port (s : state) : option port :=
  match next_port s with
  | O => None
  | S n => Some n
  end.

(** Every active timer is one of the two kinds the page creates: a heartbeat
    (the ping callback, every 20000 ms, whose handle a registered listener
    captured) or a retry (the [connectSW] callback). *)
Definition timer_typed (s : state) (tm : timer) : Prop :=
  match tm with
  | Interval i cb period _ =>
      cb = PingTick /\ period = 20000 /\
      exists p, In (p, OnDisconnect i) (listeners s)
  | Timeout _ cb _ => cb = ConnectSW
  end.

Definition timers_typed (s : state) : Prop :=
  forall tm, In tm (timers s) -> timer_typed s tm.

(** Active timers have pairwise distinct handles, all handed out already. *)
Definition distinct_timers (s : state) : Prop :=
  NoDup (map timer_ident (timers s)) /\
  forall tm, In tm (timers s) -> (timer_ident tm < next_timer s)%nat.

(** How many recorded calls satisfy [f]. *)
Definition count_calls (f : call -> bool) (s : state) : nat :=
  List.length (filter (fun c => f (snd c)) (trace s)).

Definition connect_succeeded (c : call) : bool :=
  match c with Connect _ Succeeds => true | _ => false end.

Definition connect_failed (c : call) : bool :=
  match c with Connect _ (Throws _) => true | _ => false end.

Definition any_connect (c : call) : bool :=
  match c with Connect _ _ => true | _ => false end.

Definition level_eqb (a b : level) : bool :=
  match a, b with
  | Log, Log | Warn, Warn | Error, Error => true
  | _, _ => false
  end.

Definition logged (l : level) (c : call) : bool :=
  match c with Console l' _ _ => level_eqb l l' | _ => false end.

Definition made_interval (c : call) : bool :=
  match c with SetInterval _ _ => true | _ => false end.

Definition added_listener (c : call) : bool :=
  match c with AddListener _ _ => true | _ => false end.

Definition cleared_interval (c : call) : bool :=
  match c with ClearInterval _ => true | _ => false end.

Definition made_timeout (c : call) : bool :=
  match c with SetTimeout _ _ => true | _ => false end.

Definition made_timeout_of (d : Z) (c : call) : bool :=
  match c with SetTimeout _ d' => Z.eqb d' d | _ => false end.

Definition connect_names (s : state) : Prop :=
  Forall (fun c => match snd c with
                   | Connect name _ => name = "bt-keepalive"
                   | _ => True
                   end) (trace s).

(** One line of the console per lifecycle step, and one browser object per
    successful open. *)
Definition bookkeeping (s : state) : Prop :=
  count_calls connect_succeeded s = next_port s /\
  count_calls (logged Log) s = next_port s /\
  count_calls made_interval s = next_port s /\
  count_calls added_listener s = next_port s /\
  List.length (listeners s) = next_port s /\
  count_calls (logged Error) s = count_calls connect_failed s /\
  count_calls (made_timeout_of 2000) s = count_calls connect_failed s /\
  count_calls (logged Warn) s = count_calls cleared_interval s /\
  count_calls (made_timeout_of 1000) s = count_calls cleared_interval s /\
  connect_names s.

(** The events of a retry that fires whenever it is due and fails each time,
    and the calls such retries are expected to make.  [i] is the handle of
    the pending retry and [n] the handle the next timer will get. *)
Fixpoint retry_events (i n : timer_id) (due : Z) (errs : list exn) : list timed :=
  match errs with
  | [] => []
  | e :: errs' =>
      At due (TimerFires i (Throws e)) :: retry_events n (S n) (due + 2000) errs'
  end.

Fixpoint retry_calls (n : timer_id) (due : Z) (errs : list exn) : list (Z * call) :=
  match errs with
  | [] => []
  | e :: errs' =>
      (due, Connect "bt-keepalive" (Throws e)) ::
      (due, Console Error "[offscreen] Failed to connect to SW" (Some e)) ::
      (due, SetTimeout n 2000) ::
      retry_calls (S n) (due + 2000) errs'
  end.

(** ** What each closure does to the state *)

Lemma connectSW_succeeds (s : state) :
  connectSW Succeeds s =
  (Normal tt,
   mkState (clock s) (Some (next_port s))
     (timers s ++ [Interval (next_timer s) PingTick 20000 (clock s + 20000)])
     (S (next_timer s)) (S (next_port s))
     (listeners s ++ [(next_port s, OnDisconnect (next_timer s))])
     (closed s)
     (trace s ++
        [(clock s, Connect "bt-keepalive" Succeeds);
         (clock s, Console Log "[offscreen] Connected keepalive port to service worker" None);
         (clock s, SetInterval (next_timer s) 20000);
         (clock s, AddListener (next_port s) (OnDisconnect (next_timer s)))])
     (uncaught s)).
Proof.
  unfold connectSW, try_catch, bind; cbn.
  repeat rewrite <- app_assoc. reflexivity.
Qed.

Lemma connectSW_throws (e : exn) (s : state) :
  connectSW (Throws e) s =
  (Normal tt,
   mkState (clock s) (swPort s)
     (timers s ++ [Timeout (next_timer s) ConnectSW (clock s + 2000)])
     (S (next_timer s)) (next_port s) (listeners s) (closed s)
     (trace s ++
        [(clock s, Connect "bt-keepalive" (Throws e));
         (clock s, Console Error "[offscreen] Failed to connect to SW" (Some e));
         (clock s, SetTimeout (next_timer s) 2000)])
     (uncaught s)).
Proof.
  unfold connectSW, try_catch, bind; cbn.
  repeat rewrite <- app_assoc. reflexivity.
Qed.

Lemma onDisconnect_eq (i : timer_id) (s : state) :
  onDisconnect i s =
  (Normal tt,
   mkState (clock s) (swPort s)
     (remove_timer i (timers s) ++ [Timeout (next_timer s) ConnectSW (clock s + 1000)])
     (S (next_timer s)) (next_port s) (listeners s) (closed s)
     (trace s ++
        [(clock s, ClearInterval i);
         (clock s, Console Warn "[offscreen] Keepalive port disconnected" None);
         (clock s, SetTimeout (next_timer s) 1000)])
     (uncaught s)).
Proof.
  unfold onDisconnect, bind; cbn.
  repeat rewrite <- app_assoc. reflexivity.
Qed.

Lemma pingTick_eq (o : outcome) (s : state) :
  pingTick o s =
  (Normal tt,
   match swPort s with
   | Some p => set_trace (trace s ++ [(clock s, PostMessage p (ping_message (clock s)) o)]) s
   | None => s
   end).
Proof.
  unfold pingTick, try_catch, bind; cbn.
  destruct (swPort s); cbn; [destruct o; reflexivity | reflexivity].
Qed.

Lemma run_connectSW_succeeds (s : state) :
  run_task (connectSW Succeeds) s =
  mkState (clock s) (Some (next_port s))
    (timers s ++ [Interval (next_timer s) PingTick 20000 (clock s + 20000)])
    (S (next_timer s)) (S (next_port s))
    (listeners s ++ [(next_port s, OnDisconnect (next_timer s))])
    (closed s)
    (trace s ++
       [(clock s, Connect "bt-keepalive" Succeeds);
        (clock s, Console Log "[offscreen] Connected keepalive port to service worker" None);
        (clock s, SetInterval (next_timer s) 20000);
        (clock s, AddListener (next_port s) (OnDisconnect (next_timer s)))])
    (uncaught s).
Proof. unfold run_task. rewrite connectSW_succeeds. reflexivity. Qed.

Lemma run_connectSW_throws (e : exn) (s : state) :
  run_task (connectSW (Throws e)) s =
  mkState (clock s) (swPort s)
    (timers s ++ [Timeout (next_timer s) ConnectSW (clock s + 2000)])
    (S (next_timer s)) (next_port s) (listeners s) (closed s)
    (trace s ++
       [(clock s, Connect "bt-keepalive" (Throws e));
        (clock s, Console Error "[offscreen] Failed to connect to SW" (Some e));
        (clock s, SetTimeout (next_timer s) 2000)])
    (uncaught s).
Proof. unfold run_task. rewrite connectSW_throws. reflexivity. Qed.

Lemma run_onDisconnect (i : timer_id) (s : state) :
  run_task (onDisconnect i) s =
  mkState (clock s) (swPort s)
    (remove_timer i (timers s) ++ [Timeout (next_timer s) ConnectSW (clock s + 1000)])
    (S (next_timer s)) (next_port s) (listeners s) (closed s)
    (trace s ++
       [(clock s, ClearInterval i);
        (clock s, Console Warn "[offscreen] Keepalive port disconnected" None);
        (clock s, SetTimeout (next_timer s) 1000)])
    (uncaught s).
Proof. unfold run_task. rewrite onDisconnect_eq. reflexivity. Qed.

Lemma run_pingTick (o : outcome) (s : state) :
  run_task (pingTick o) s =
  match swPort s with
  | Some p => set_trace (trace s ++ [(clock s, PostMessage p (ping_message (clock s)) o)]) s
  | None => s
  end.
Proof. unfold run_task. rewrite pingTick_eq. reflexivity. Qed.

(** ** The list of active timers *)


Lemma find_timer_absent (i : timer_id) (ts : list timer) :
  (forall t, In t ts -> timer_ident t <> i) -> find_timer i ts = None.
Proof.
  induction ts as [|a ts IH]; cbn; intros H; [reflexivity|].
  destruct (Nat.eqb (timer_ident a) i) eqn:E.
  - apply Nat.eqb_eq in E. exfalso. apply (H a); auto.
  - apply IH. intros t Ht. apply H. auto.
Qed.

Lemma find_timer_app (i : timer_id) (ts us : list timer) :
  find_timer i (ts ++ us) =
  match find_timer i ts with
  | Some t => Some t
  | None => find_timer i us
  end.
Proof.
  induction ts as [|a ts IH]; cbn; [reflexivity|].
  destruct (Nat.eqb (timer_ident a) i); [reflexivity | exact IH].
Qed.

Lemma find_remove_same (i : timer_id) (ts : list timer) :
  find_timer i (remove_timer i ts) = None.
Proof.
  apply find_timer_absent. intros t Ht. unfold remove_timer in Ht.
  apply filter_In in Ht. destruct Ht as [_ Ht].
  apply negb_true_iff, Nat.eqb_neq in Ht. exact Ht.
Qed.

Lemma find_remove_other (i j : timer_id) (ts : list timer) :
  j <> i -> find_timer j (remove_timer i ts) = find_timer j ts.
Proof.
  intros Hij. induction ts as [|a ts IH]; cbn; [reflexivity|].
  destruct (Nat.eqb (timer_ident a) i) eqn:E; cbn.
  - apply Nat.eqb_eq in E.
    destruct (Nat.eqb (timer_ident a) j) eqn:F; [|exact IH].
    apply Nat.eqb_eq in F. congruence.
  - destruct (Nat.eqb (timer_ident a) j); [reflexivity | exact IH].
Qed.


Lemma find_rearm_same (i : timer_id) (d : Z) (ts : list timer)
      (j : timer_id) (cb : callback) (period due : Z) :
  find_timer i ts = Some (Interval j cb period due) ->
  find_timer i (rearm i d ts) = Some (Interval j cb period d).
Proof.
  induction ts as [|a ts IH]; cbn; [discriminate|].
  destruct a as [k cb' due' | k cb' period' due']; cbn.
  - destruct (Nat.eqb k i); [discriminate | exact IH].
  - destruct (Nat.eqb k i) eqn:E; cbn; rewrite E.
    + intros H; injection H as -> -> -> ->. reflexivity.
    + exact IH.
Qed.

Lemma rearm_ident (i : timer_id) (d : Z) (ts : list timer) :
  map timer_ident (rearm i d ts) = map timer_ident ts.
Proof.
  induction ts as [|a ts IH]; cbn; [reflexivity|].
  f_equal; [|exact IH].
  destruct a as [k cb due | k cb period due]; cbn; [reflexivity|].
  destruct (Nat.eqb k i); reflexivity.
Qed.

Lemma rearm_timeouts (i : timer_id) (d : Z) (ts : list timer) :
  filter is_timeout (rearm i d ts) = filter is_timeout ts.
Proof.
  induction ts as [|a ts IH]; cbn; [reflexivity|].
  destruct a as [k cb due | k cb period due]; cbn.
  - f_equal. exact IH.
  - destruct (Nat.eqb k i); cbn; exact IH.
Qed.


(** ** Listeners and disconnected ports *)

Lemma live_app (cl : list port) (ls ms : list (port * listener)) :
  live cl (ls ++ ms) = live cl ls ++ live cl ms.
Proof. unfold live. apply filter_app. Qed.

Lemma live_close (p : port) (cl : list port) (ls : list (port * listener)) :
  live (p :: cl) ls = filter (fun pl => negb (Nat.eqb (fst pl) p)) (live cl ls).
Proof.
  unfold live. induction ls as [|[q l] ls IH]; cbn; [reflexivity|].
  destruct (Nat.eqb q p) eqn:E; cbn.
  - destruct (existsb (Nat.eqb q) cl); cbn; [exact IH|].
    rewrite E. cbn. exact IH.
  - destruct (existsb (Nat.eqb q) cl); cbn; [exact IH|].
    rewrite E. cbn. f_equal. exact IH.
Qed.

Lemma listeners_on_live (p : port) (cl : list port) (ls : list (port * listener)) :
  existsb (Nat.eqb p) cl = false ->
  listeners_on p ls = listeners_on p (live cl ls).
Proof.
  intros Hp. unfold listeners_on, live. f_equal.
  induction ls as [|[q l] ls IH]; cbn; [reflexivity|].
  destruct (Nat.eqb q p) eqn:E.
  - apply Nat.eqb_eq in E. subst q. rewrite Hp. cbn.
    rewrite Nat.eqb_refl. f_equal. exact IH.
  - destruct (existsb (Nat.eqb q) cl); cbn; [exact IH|].
    rewrite E. exact IH.
Qed.

Lemma existsb_eqb_false (p : port) (cl : list port) :
  ~ In p cl -> existsb (Nat.eqb p) cl = false.
Proof.
  intros H. destruct (existsb (Nat.eqb p) cl) eqn:E; [|reflexivity].
  apply existsb_exists in E. destruct E as [q [Hq E]].
  apply Nat.eqb_eq in E. subst q. contradiction.
Qed.

Lemma existsb_eqb_true (p : port) (cl : list port) :
  In p cl -> existsb (Nat.eqb p) cl = true.
Proof.
  intros H. apply existsb_exists. exists p. split; [exact H | apply Nat.eqb_refl].
Qed.

(** ** The page is steady between tasks *)

Lemma steady_boot (t0 : Z) (o : outcome) : steady (boot t0 o).
Proof.
  unfold boot. destruct o as [|e].
  - rewrite run_connectSW_succeeds. split; cbn; [intros q []|].
    left. exists 0%nat, 1%nat, (t0 + 20000). cbn. auto.
  - rewrite run_connectSW_throws. split; cbn; [intros q []|].
    right. exists 1%nat, (t0 + 2000). cbn. auto.
Qed.

Lemma steady_fire (t : Z) (i : timer_id) (o : outcome) (s : state) :
  steady s -> steady (fire i o (set_clock t s)).
Proof.
  intros [Hc [(p & i0 & due & Ht & Hp & Hl) | (i0 & due & Ht & Hl)]];
    unfold fire; cbn [timers set_clock]; rewrite Ht; cbn [find_timer timer_ident].
  - destruct (Nat.eqb i0 i) eqn:E.
    + cbn [callback_body rearm map]. rewrite E. rewrite run_pingTick.
      cbn [swPort set_timers set_clock]. rewrite Hp.
      split; [exact Hc|]. left. exists p, i0, (t + 20000). cbn. auto.
    + split; [exact Hc|]. left. exists p, i0, due. cbn. auto.
  - destruct (Nat.eqb i0 i) eqn:E.
    + cbn [callback_body remove_timer filter timer_ident]. rewrite E. cbn [negb].
      destruct o as [|e].
      * rewrite run_connectSW_succeeds. cbn.
        split; [intros q Hq; apply Hc in Hq; apply Nat.lt_lt_succ_r, Hq|].
        left. exists (next_port s), (next_timer s), (t + 20000).
        repeat split. unfold live_listeners. cbn [closed listeners].
        rewrite live_app. unfold live_listeners in Hl. rewrite Hl. cbn.
        rewrite existsb_eqb_false; [reflexivity|].
        intros Hq. apply Hc in Hq. exact (Nat.lt_irrefl _ Hq).
      * rewrite run_connectSW_throws. cbn.
        split; [exact Hc|]. right. exists (next_timer s), (t + 2000). cbn. auto.
    + split; [exact Hc|]. right. exists i0, due. cbn. auto.
Qed.

Lemma steady_disconnect (t : Z) (p : port) (s : state) :
  steady s -> (p < next_port s)%nat -> is_closed p s = false ->
  steady (disconnect p (set_clock t s)).
Proof.
  intros [Hc Hs] Hlt Hp. unfold disconnect. cbn [listeners closed set_clock].
  rewrite (listeners_on_live p (closed s)) by exact Hp.
  fold (live_listeners s).
  assert (Hc' : forall q, In q (p :: closed s) -> (q < next_port s)%nat).
  { intros q [<- | Hq]; [exact Hlt | apply Hc, Hq]. }
  destruct Hs as [(p0 & i0 & due & Ht & Hsw & Hl) | (i0 & due & Ht & Hl)]; rewrite Hl.
  - unfold listeners_on. cbn [filter fst]. destruct (Nat.eqb p0 p) eqn:E.
    + cbn [map snd run_listeners fold_left listener_body].
      rewrite run_onDisconnect.
      split; [exact Hc'|]. right. exists (next_timer s), (t + 1000). split.
      * cbn. rewrite Ht. cbn. rewrite Nat.eqb_refl. reflexivity.
      * unfold live_listeners. cbn [closed listeners set_closed set_clock].
        rewrite live_close. fold (live_listeners s). rewrite Hl. cbn. rewrite E. reflexivity.
    + cbn [map run_listeners fold_left].
      split; [exact Hc'|]. left. exists p0, i0, due.
      repeat split; [exact Ht | exact Hsw |].
      unfold live_listeners. cbn [closed listeners set_closed set_clock].
      rewrite live_close. fold (live_listeners s). rewrite Hl. cbn. rewrite E. reflexivity.
  - cbn [listeners_on filter map run_listeners fold_left].
    split; [exact Hc'|]. right. exists i0, due.
    split; [exact Ht|]. unfold live_listeners. cbn [closed listeners set_closed set_clock].
    rewrite live_close. fold (live_listeners s). rewrite Hl. reflexivity.
Qed.

Lemma steady_dispatch (s : state) (e : timed) :
  steady s -> admissible s e = true -> steady (dispatch e s).
Proof.
  intros Hs Ha. destruct e as [t [i o | p]]; unfold dispatch; cbn [what when].
  - apply steady_fire, Hs.
  - unfold admissible in Ha. cbn [what when] in Ha.
    apply andb_prop in Ha. destruct Ha as [_ Ha].
    apply andb_prop in Ha. destruct Ha as [Hlt Hp].
    apply Nat.ltb_lt in Hlt. apply negb_true_iff in Hp.
    apply steady_disconnect; assumption.
Qed.

Lemma reachable_steady (s : state) : reachable s -> steady s.
Proof.
  induction 1 as [t0 o | s e _ IH Ha].
  - apply steady_boot.
  - apply steady_dispatch; assumption.
Qed.

Lemma reachable_run (es : list timed) (s : state) :
  reachable s -> admissible_run s es = true -> reachable (run es s).
Proof.
  revert s. induction es as [|e es IH]; intros s Hs Ha; cbn in *; [exact Hs|].
  apply andb_prop in Ha. destruct Ha as [He Hes].
  apply IH; [apply reach_step; assumption | exact Hes].
Qed.

Lemma fire_transition (t : Z) (i : timer_id) (o : outcome) (s : state) :
  steady s ->
  match find_timer i (timers s) with
  | None => True
  | Some tm => timer_due tm <= t
  end ->
  transition s (At t (TimerFires i o)) (fire i o (set_clock t s)).
Proof.
  intros [Hc [(p & i0 & due & Ht & Hp & Hl) | (i0 & due & Ht & Hl)]];
    unfold fire; cbn [timers set_clock]; rewrite Ht; cbn [find_timer timer_ident].
  - destruct (Nat.eqb i0 i) eqn:E; intros Hdue.
    + cbn [callback_body rearm map]. rewrite E. rewrite run_pingTick.
      cbn [swPort set_timers set_clock]. rewrite Hp.
      unfold set_trace, set_timers, set_clock. cbn. rewrite Hp.
      apply Nat.eqb_eq in E. subst i0.
      apply (tr_tick s p i due t o); assumption.
    + apply tr_stale. rewrite Ht. cbn. rewrite E. reflexivity.
  - destruct (Nat.eqb i0 i) eqn:E; intros Hdue.
    + cbn [callback_body remove_timer filter timer_ident]. rewrite E. cbn [negb].
      apply Nat.eqb_eq in E. subst i0.
      destruct o as [|e].
      * rewrite run_connectSW_succeeds. cbn.
        apply (tr_reconnect s i due t); assumption.
      * rewrite run_connectSW_throws. cbn.
        apply (tr_retry_fails s i due t e); assumption.
    + apply tr_stale. rewrite Ht. cbn. rewrite E. reflexivity.
Qed.

Lemma disconnect_transition (t : Z) (p : port) (s : state) :
  steady s -> is_closed p s = false ->
  transition s (At t (PortDisconnects p)) (disconnect p (set_clock t s)).
Proof.
  intros [Hc Hs] Hp. unfold disconnect. cbn [listeners closed set_clock].
  rewrite (listeners_on_live p (closed s)) by exact Hp.
  fold (live_listeners s).
  destruct Hs as [(p0 & i0 & due & Ht & Hsw & Hl) | (i0 & due & Ht & Hl)].
  - destruct (Nat.eqb p0 p) eqn:E.
    + rewrite Hl. unfold listeners_on. cbn [filter fst]. rewrite E.
      cbn [map snd run_listeners fold_left listener_body].
      rewrite run_onDisconnect. cbn. rewrite Ht. cbn. rewrite Nat.eqb_refl. cbn.
      apply Nat.eqb_eq in E. subst p0. rewrite Hsw.
      apply (tr_link_lost s p i0 due t); assumption.
    + assert (Hno : listeners_on p (live_listeners s) = []).
      { rewrite Hl. unfold listeners_on. cbn. rewrite E. reflexivity. }
      rewrite Hno. cbn. apply tr_unheard, Hno.
  - assert (Hno : listeners_on p (live_listeners s) = []).
    { rewrite Hl. reflexivity. }
    rewrite Hno. cbn. apply tr_unheard, Hno.
Qed.

Lemma dispatch_transition (s : state) (e : timed) :
  steady s -> admissible s e = true -> transition s e (dispatch e s).
Proof.
  intros Hs Ha. destruct e as [t [i o | p]]; unfold dispatch; cbn [what when];
    unfold admissible in Ha; cbn [what when] in Ha;
    apply andb_prop in Ha; destruct Ha as [_ Ha].
  - apply fire_transition; [exact Hs|].
    destruct (find_timer i (timers s)); [apply Z.leb_le, Ha | exact I].
  - apply andb_prop in Ha. destruct Ha as [_ Hp].
    apply negb_true_iff in Hp.
    apply disconnect_transition; assumption.
Qed.

(** ** Properties kept by every task, whatever the browser does *)

Section Preservation.

Variable Q : state -> Prop.

Hypothesis Q_clock : forall t s, Q s -> Q (set_clock t s).
Hypothesis Q_remove : forall i s, Q s -> Q (set_timers (remove_timer i (timers s)) s).
Hypothesis Q_rearm : forall i d s, Q s -> Q (set_timers (rearm i d (timers s)) s).
Hypothesis Q_close : forall p s, Q s -> Q (set_closed (p :: closed s) s).
Hypothesis Q_connectSW : forall o s, Q s -> Q (run_task (connectSW o) s).
Hypothesis Q_pingTick : forall o s, Q s -> Q (run_task (pingTick o) s).
Hypothesis Q_onDisconnect : forall i s, Q s -> Q (run_task (onDisconnect i) s).

Lemma kept_by_callback (cb : callback) (o : outcome) (s : state) :
  Q s -> Q (run_task (callback_body cb o) s).
Proof. destruct cb; cbn; auto. Qed.

Lemma kept_by_fire (i : timer_id) (o : outcome) (s : state) :
  Q s -> Q (fire i o s).
Proof.
  intros H. unfold fire.
  destruct (find_timer i (timers s)) as [[j cb due | j cb period due]|];
    [apply kept_by_callback, Q_remove, H
    | apply kept_by_callback, Q_rearm, H
    | exact H].
Qed.

Lemma kept_by_listeners (ls : list listener) (s : state) :
  Q s -> Q (run_listeners ls s).
Proof.
  revert s. induction ls as [|[i] ls IH]; intros s H; cbn; [exact H|].
  apply IH. apply Q_onDisconnect, H.
Qed.

Lemma kept_by_dispatch (e : timed) (s : state) :
  Q s -> Q (dispatch e s).
Proof.
  intros H. destruct e as [t [i o | p]]; unfold dispatch; cbn [what when].
  - apply kept_by_fire, Q_clock, H.
  - unfold disconnect. apply kept_by_listeners.
    apply (Q_close p (set_clock t s)), Q_clock, H.
Qed.

Lemma kept_by_run (es : list timed) (s : state) :
  Q s -> Q (run es s).
Proof.
  revert s. induction es as [|e es IH]; intros s H; cbn; [exact H|].
  apply IH, kept_by_dispatch, H.
Qed.

Lemma kept_from_boot (t0 : Z) (o : outcome) (es : list timed) :
  Q (initial t0) -> Q (run es (boot t0 o)).
Proof. intros H. apply kept_by_run. unfold boot. apply Q_connectSW, H. Qed.

End Preservation.

Lemma rearm_In (i : timer_id) (d : Z) (ts : list timer) (tm : timer) :
  In tm (rearm i d ts) ->
  exists tm0, In tm0 ts /\ timer_ident tm0 = timer_ident tm /\
              is_timeout tm0 = is_timeout tm.
Proof.
  unfold rearm. intros H. apply in_map_iff in H. destruct H as [tm0 [H Hin]].
  exists tm0. split; [exact Hin|]. subst tm.
  destruct tm0 as [k cb due | k cb period due]; cbn; [auto|].
  destruct (Nat.eqb k i); cbn; auto.
Qed.

Lemma remove_In (i : timer_id) (ts : list timer) (tm : timer) :
  In tm (remove_timer i ts) -> In tm ts /\ timer_ident tm <> i.
Proof.
  unfold remove_timer. intros H. apply filter_In in H. destruct H as [H1 H2].
  split; [exact H1|]. apply negb_true_iff, Nat.eqb_neq in H2. exact H2.
Qed.

Lemma well_formed_initial (t0 : Z) : well_formed (initial t0).
Proof.
  repeat split; cbn; try (intros; contradiction). constructor.
Qed.

Lemma well_formed_connectSW (o : outcome) (s : state) :
  well_formed s -> well_formed (run_task (connectSW o) s).
Proof.
  intros (W1 & W2 & W3 & W4). destruct o as [|e].
  - rewrite run_connectSW_succeeds. repeat split; cbn.
    + intros tm H. apply in_app_or in H. destruct H as [H | [<- | []]].
      * apply Nat.lt_lt_succ_r, W1, H.
      * cbn. apply Nat.lt_succ_diag_r.
    + intros pl H. apply in_app_or in H. destruct H as [H | [<- | []]].
      * apply Nat.lt_lt_succ_r, W2, H.
      * cbn. apply Nat.lt_succ_diag_r.
    + rewrite map_app. cbn. apply NoDup_app; [exact W3 | repeat constructor; intros [] |].
      intros x Hx [<- | []]. apply in_map_iff in Hx. destruct Hx as [pl [Hx Hin]].
      apply W2 in Hin. rewrite Hx in Hin. exact (Nat.lt_irrefl _ Hin).
    + intros tm pl Htm Hto Hpl.
      apply in_app_or in Htm. destruct Htm as [Htm | [<- | []]]; [|discriminate].
      apply in_app_or in Hpl. destruct Hpl as [Hpl | [<- | []]].
      * apply (W4 tm pl); assumption.
      * cbn. apply W1 in Htm. intros F. rewrite F in Htm. exact (Nat.lt_irrefl _ Htm).
  - rewrite run_connectSW_throws. repeat split; cbn.
    + intros tm H. apply in_app_or in H. destruct H as [H | [<- | []]].
      * apply Nat.lt_lt_succ_r, W1, H.
      * cbn. apply Nat.lt_succ_diag_r.
    + intros pl H. apply Nat.lt_lt_succ_r, W2, H.
    + exact W3.
    + intros tm pl Htm Hto Hpl.
      apply in_app_or in Htm. destruct Htm as [Htm | [<- | []]].
      * apply (W4 tm pl); assumption.
      * cbn. apply W2 in Hpl. intros F. rewrite F in Hpl. exact (Nat.lt_irrefl _ Hpl).
Qed.

Lemma well_formed_onDisconnect (i : timer_id) (s : state) :
  well_formed s -> well_formed (run_task (onDisconnect i) s).
Proof.
  intros (W1 & W2 & W3 & W4). rewrite run_onDisconnect. repeat split; cbn.
  - intros tm H. apply in_app_or in H. destruct H as [H | [<- | []]].
    + apply remove_In in H. apply Nat.lt_lt_succ_r, W1, H.
    + cbn. apply Nat.lt_succ_diag_r.
  - intros pl H. apply Nat.lt_lt_succ_r, W2, H.
  - exact W3.
  - intros tm pl Htm Hto Hpl.
    apply in_app_or in Htm. destruct Htm as [Htm | [<- | []]].
    + apply remove_In in Htm. apply (W4 tm pl); tauto.
    + cbn. apply W2 in Hpl. intros F. rewrite F in Hpl. exact (Nat.lt_irrefl _ Hpl).
Qed.

Lemma well_formed_pingTick (o : outcome) (s : state) :
  well_formed s -> well_formed (run_task (pingTick o) s).
Proof.
  intros W. rewrite run_pingTick. destruct (swPort s); exact W.
Qed.

Lemma well_formed_remove (i : timer_id) (s : state) :
  well_formed s -> well_formed (set_timers (remove_timer i (timers s)) s).
Proof.
  intros (W1 & W2 & W3 & W4). repeat split; cbn.
  - intros tm H. apply remove_In in H. apply W1, H.
  - exact W2.
  - exact W3.
  - intros tm pl Htm Hto Hpl. apply remove_In in Htm. apply (W4 tm pl); tauto.
Qed.

Lemma well_formed_rearm (i : timer_id) (d : Z) (s : state) :
  well_formed s -> well_formed (set_timers (rearm i d (timers s)) s).
Proof.
  intros (W1 & W2 & W3 & W4). repeat split; cbn.
  - intros tm H. apply rearm_In in H. destruct H as (tm0 & Hin & Hid & _).
    rewrite <- Hid. apply W1, Hin.
  - exact W2.
  - exact W3.
  - intros tm pl Htm Hto Hpl. apply rearm_In in Htm.
    destruct Htm as (tm0 & Hin & Hid & Hk).
    rewrite <- Hid. apply (W4 tm0 pl); congruence.
Qed.

Lemma well_formed_run (t0 : Z) (o : outcome) (es : list timed) :
  well_formed (run es (boot t0 o)).
Proof.
  apply (kept_from_boot well_formed).
  - intros t s W. exact W.
  - apply well_formed_remove.
  - apply well_formed_rearm.
  - intros p s W. exact W.
  - apply well_formed_connectSW.
  - apply well_formed_pingTick.
  - apply well_formed_onDisconnect.
  - apply well_formed_initial.
Qed.

Lemma pingTick_frame (o : outcome) (s : state) :
  exists tr, run_task (pingTick o) s = set_trace tr s.
Proof.
  rewrite run_pingTick. destruct (swPort s) as [p|].
  - eexists. reflexivity.
  - exists (trace s). destruct s. reflexivity.
Qed.

Lemma latest_port_run (t0 : Z) (o : outcome) (es : list timed) :
  swPort (run es (boot t0 o)) = latest_port (run es (boot t0 o)) /\
  map fst (listeners (run es (boot t0 o))) = seq 0 (next_port (run es (boot t0 o))).
Proof.
  apply (kept_from_boot
           (fun s => swPort s = latest_port s /\
                     map fst (listeners s) = seq 0 (next_port s))).
  - intros t s H. exact H.
  - intros i s H. exact H.
  - intros i d s H. exact H.
  - intros p s H. exact H.
  - intros [|e] s [H1 H2]; [rewrite run_connectSW_succeeds | rewrite run_connectSW_throws];
      unfold latest_port; cbn [swPort next_port listeners]; [|split; assumption].
    split; [reflexivity|]. rewrite map_app, H2, seq_S. reflexivity.
  - intros o' s H. destruct (pingTick_frame o' s) as [tr ->]. exact H.
  - intros i s H. rewrite run_onDisconnect. exact H.
  - split; reflexivity.
Qed.

(** ** What a run adds to the trace *)

Lemma posts_on_app (p : port) (tr d : list (Z * call)) :
  filter (is_post_on p) (tr ++ d) = filter (is_post_on p) tr ++ filter (is_post_on p) d.
Proof. apply filter_app. Qed.

Lemma live_not_closed (cl : list port) (ls : list (port * listener))
      (p : port) (l : listener) :
  In (p, l) (live cl ls) -> ~ In p cl.
Proof.
  unfold live. intros H Hp. apply filter_In in H. destruct H as [_ H].
  cbn in H. rewrite (existsb_eqb_true p cl Hp) in H. discriminate.
Qed.

Lemma live_In (cl : list port) (ls : list (port * listener))
      (p : port) (l : listener) :
  In (p, l) ls -> existsb (Nat.eqb p) cl = false -> In (p, l) (live cl ls).
Proof.
  intros H Hp. unfold live. apply filter_In. split; [exact H|].
  cbn. rewrite Hp. reflexivity.
Qed.

Lemma listeners_on_In (p : port) (l : listener) (ls : list (port * listener)) :
  In (p, l) ls -> In l (listeners_on p ls).
Proof.
  intros H. unfold listeners_on. apply in_map_iff. exists (p, l).
  split; [reflexivity|]. apply filter_In. split; [exact H|]. cbn. apply Nat.eqb_refl.
Qed.

(** A port whose disconnect was dispatched gets no message any more. *)
Lemma transition_closed_silent (s s' : state) (e : timed) (p : port) :
  transition s e s' -> In p (closed s) ->
  posts_on p s' = posts_on p s /\ In p (closed s').
Proof.
  intros Htr Hp. unfold posts_on.
  destruct Htr as [p0 i due t o Ht Hsw Hl Hdue | j t o Hf | i due t Ht Hl Hdue
                  | i due t e0 Ht Hl Hdue | p0 i due t Ht Hsw Hl | p0 t Hno];
    cbn [trace closed set_clock set_closed]; try rewrite posts_on_app; cbn.
  - assert (Hlive : In (p0, OnDisconnect i) (live_listeners s)) by (rewrite Hl; left; reflexivity).
    apply live_not_closed in Hlive.
    destruct (Nat.eqb p0 p) eqn:E.
    + apply Nat.eqb_eq in E. subst p0. contradiction.
    + rewrite app_nil_r. auto.
  - auto.
  - rewrite app_nil_r. auto.
  - rewrite app_nil_r. auto.
  - rewrite app_nil_r. auto.
  - auto.
Qed.

Lemma closed_port_silent (es : list timed) (s : state) (p : port) :
  steady s -> In p (closed s) -> admissible_run s es = true ->
  posts_on p (run es s) = posts_on p s.
Proof.
  revert s. induction es as [|e es IH]; intros s Hs Hp Ha; cbn in *; [reflexivity|].
  apply andb_prop in Ha. destruct Ha as [He Hes].
  destruct (transition_closed_silent s (dispatch e s) e p) as [Hposts Hp'];
    [apply dispatch_transition; assumption | exact Hp |].
  rewrite IH; [exact Hposts | apply steady_dispatch; assumption | exact Hp' | exact Hes].
Qed.

Lemma transition_calm (D : Z) (s s' : state) (e : timed) :
  transition s e s' -> clock s <= when e -> calm D s ->
  calm D s' /\ exists d, trace s' = trace s ++ d /\ Forall (not_before D) d.
Proof.
  intros Htr Hclk [Hc Hd].
  destruct Htr as [p0 i due t o Ht Hsw Hl Hdue | j t o Hf | i due t Ht Hl Hdue
                  | i due t e0 Ht Hl Hdue | p0 i due t Ht Hsw Hl | p0 t Hno];
    cbn [when] in Hclk; unfold calm; cbn [clock timers trace set_clock set_closed].
  - split; [split; [lia | intros tm [<- | []]; discriminate]|].
    eexists; split; [reflexivity|]. repeat constructor. discriminate.
  - split; [split; [lia | exact Hd]|].
    exists []. rewrite app_nil_r. split; [reflexivity | constructor].
  - assert (HD : D <= t).
    { specialize (Hd (Timeout i ConnectSW due)). rewrite Ht in Hd.
      cbn in Hd. specialize (Hd (or_introl eq_refl) eq_refl). lia. }
    split; [split; [lia | intros tm [<- | []]; discriminate]|].
    eexists; split; [reflexivity|].
    repeat constructor; unfold not_before; cbn; intros; try discriminate; exact HD.
  - assert (HD : D <= t).
    { specialize (Hd (Timeout i ConnectSW due)). rewrite Ht in Hd.
      cbn in Hd. specialize (Hd (or_introl eq_refl) eq_refl). lia. }
    split; [split; [lia | intros tm [<- | []] _; cbn; lia]|].
    eexists; split; [reflexivity|].
    repeat constructor; unfold not_before; cbn; intros; try discriminate; exact HD.
  - split; [split; [lia | intros tm [<- | []] _; cbn; lia]|].
    eexists; split; [reflexivity|].
    repeat constructor; unfold not_before; cbn; intros; discriminate.
  - split; [split; [lia | exact Hd]|].
    exists []. rewrite app_nil_r. split; [reflexivity | constructor].
Qed.

Lemma admissible_clock (s : state) (e : timed) :
  admissible s e = true -> clock s <= when e.
Proof.
  unfold admissible. intros H. apply andb_prop in H. destruct H as [H _].
  apply Z.leb_le, H.
Qed.

Lemma run_cons (e : timed) (es : list timed) (s : state) :
  run (e :: es) s = run es (dispatch e s).
Proof. reflexivity. Qed.

Lemma calm_run (D : Z) (es : list timed) (s : state) :
  steady s -> calm D s -> admissible_run s es = true ->
  exists d, trace (run es s) = trace s ++ d /\ Forall (not_before D) d.
Proof.
  revert s. induction es as [|e es IH]; intros s Hs Hc Ha.
  - exists []. rewrite app_nil_r. split; [reflexivity | constructor].
  - rewrite run_cons. cbn [admissible_run] in Ha. apply andb_prop in Ha. destruct Ha as [He Hes].
    destruct (transition_calm D s (dispatch e s) e) as [Hc' (d1 & Hd1 & F1)];
      [apply dispatch_transition; assumption | apply admissible_clock, He | exact Hc |].
    destruct (IH (dispatch e s)) as (d2 & Hd2 & F2);
      [apply steady_dispatch; assumption | exact Hc' | exact Hes |].
    exists (d1 ++ d2). split.
    + rewrite Hd2, Hd1, app_assoc. reflexivity.
    + apply Forall_app. split; assumption.
Qed.

(** The link's port is disconnected: the page goes from linked to waiting. *)
Lemma link_lost (s : state) (p : port) (i : timer_id) (t : Z) :
  steady s ->
  admissible s (At t (PortDisconnects p)) = true ->
  In (p, OnDisconnect i) (listeners s) ->
  (exists due, timers s = [Interval i PingTick 20000 due]) /\
  swPort s = Some p /\
  dispatch (At t (PortDisconnects p)) s =
  mkState t (Some p) [Timeout (next_timer s) ConnectSW (t + 1000)]
    (S (next_timer s)) (next_port s) (listeners s) (p :: closed s)
    (trace s ++
       [(t, ClearInterval i);
        (t, Console Warn "[offscreen] Keepalive port disconnected" None);
        (t, SetTimeout (next_timer s) 1000)])
    (uncaught s).
Proof.
  intros Hs Ha Hin.
  assert (Hp : existsb (Nat.eqb p) (closed s) = false).
  { unfold admissible in Ha. cbn [what when] in Ha.
    apply andb_prop in Ha. destruct Ha as [_ Ha].
    apply andb_prop in Ha. destruct Ha as [_ Ha].
    apply negb_true_iff in Ha. exact Ha. }
  assert (Hlive : In (p, OnDisconnect i) (live_listeners s)) by (apply live_In; assumption).
  pose proof (dispatch_transition s _ Hs Ha) as Htr.
  inversion Htr as [| | | | p0 i0 due t' Ht Hsw Hl | p0 t' Hno]; subst.
  - rewrite Hl in Hlive. destruct Hlive as [Heq | []].
    injection Heq as ->. split; [exists due; exact Ht|]. split; [exact Hsw | reflexivity].
  - apply (listeners_on_In p (OnDisconnect i)) in Hlive.
    rewrite Hno in Hlive. contradiction.
Qed.

(** ** Heartbeat ticks *)





(** ** The properties of the keepalive loop *)

(** C1. [connectSW] never throws to its caller: whatever
    [chrome.runtime.connect] answers, the call completes normally and adds
    no uncaught exception.  When the open call throws [e], the calls made
    are, in this order, the failed open, one [console.error] carrying [e] and
    one [setTimeout] of 2000 ms; the list of active timers grows by exactly
    that one timeout, whose callback is [connectSW] and which is due 2000 ms
    after the attempt. *)
Theorem connectSW_never_throws (s : state) (e : exn) :
  (forall o, exists s', connectSW o s = (Normal tt, s') /\
                        uncaught s' = uncaught s /\
                        uncaught (run_task (connectSW o) s) = uncaught s) /\
  trace (snd (connectSW (Throws e) s)) =
    trace s ++
      [(clock s, Connect "bt-keepalive" (Throws e));
       (clock s, Console Error "[offscreen] Failed to connect to SW" (Some e));
       (clock s, SetTimeout (next_timer s) 2000)] /\
  timers (snd (connectSW (Throws e) s)) =
    timers s ++ [Timeout (next_timer s) ConnectSW (clock s + 2000)] /\
  pending_retries (snd (connectSW (Throws e) s)) =
    pending_retries s ++ [Timeout (next_timer s) ConnectSW (clock s + 2000)] /\
  heartbeat_timers (snd (connectSW (Throws e) s)) = heartbeat_timers s.
Proof.
  split.
  - intros [|e0].
    + rewrite run_connectSW_succeeds, connectSW_succeeds. eexists. split; [reflexivity|].
      split; reflexivity.
    + rewrite run_connectSW_throws, connectSW_throws. eexists. split; [reflexivity|].
      split; reflexivity.
  - rewrite connectSW_throws. unfold pending_retries, heartbeat_timers. cbn.
    rewrite !filter_app. cbn. rewrite app_nil_r. repeat split; reflexivity.
Qed.

(** C6. A heartbeat tick whose [postMessage] throws is swallowed: the
    callback completes normally, no exception reaches the event loop, the
    heartbeat timer stays active and is due one period later, no timer is
    created or removed (so no retry is scheduled), and the only call made is
    the failed [postMessage] itself: nothing is logged. *)
Theorem send_failure_is_swallowed
        (s : state) (t : Z) (i : timer_id) (period due : Z) (e : exn) :
  find_timer i (timers s) = Some (Interval i PingTick period due) ->
  fst (pingTick (Throws e) (set_clock t s)) = Normal tt /\
  uncaught (dispatch (At t (TimerFires i (Throws e))) s) = uncaught s /\
  find_timer i (timers (dispatch (At t (TimerFires i (Throws e))) s)) =
    Some (Interval i PingTick period (t + period)) /\
  map timer_ident (timers (dispatch (At t (TimerFires i (Throws e))) s)) =
    map timer_ident (timers s) /\
  pending_retries (dispatch (At t (TimerFires i (Throws e))) s) = pending_retries s /\
  next_timer (dispatch (At t (TimerFires i (Throws e))) s) = next_timer s /\
  trace (dispatch (At t (TimerFires i (Throws e))) s) =
    trace s ++
      match swPort s with
      | Some p => [(t, PostMessage p (ping_message t) (Throws e))]
      | None => []
      end.
Proof.
  intros Hf. split; [rewrite pingTick_eq; reflexivity|].
  unfold dispatch, fire. cbn [what when timers set_clock]. rewrite Hf.
  cbn [callback_body]. rewrite run_pingTick. cbn [swPort set_timers set_clock].
  unfold pending_retries.
  destruct (swPort s) as [p|]; cbn;
    rewrite (find_rearm_same i (t + period) (timers s) i PingTick period due Hf),
            rearm_ident, rearm_timeouts;
    repeat split; try reflexivity.
  rewrite app_nil_r. reflexivity.
Qed.

Lemma send_failure_is_swallowed_witness :
  find_timer 1%nat (timers (boot 0 Succeeds)) = Some (Interval 1%nat PingTick 20000 20000) /\
  uncaught (dispatch (At 20000 (TimerFires 1%nat (Throws (PlatformError "disconnected port"))))
                     (boot 0 Succeeds)) = uncaught (boot 0 Succeeds).
Proof.
  split; [reflexivity|].
  apply (send_failure_is_swallowed (boot 0 Succeeds) 20000 1%nat 20000 20000
                                   (PlatformError "disconnected port")).
  reflexivity.
Defined.

(** C7, as stated, fails: the first heartbeat of a freshly opened link is
    not an object with the fields [kind] and [timestamp]. *)
Lemma heartbeat_payload_counterexample :
  ~ heartbeat_payloads spec_ping_message
      (run [At 20000 (TimerFires 1%nat Succeeds)] (boot 0 Succeeds)).
Proof.
  unfold heartbeat_payloads. intros H. rewrite Forall_forall in H.
  specialize (H (20000, PostMessage 0%nat (ping_message 20000) Succeeds)).
  cbn in H. assert (F : ping_message 20000 = spec_ping_message 20000).
  { apply H. do 4 right. left. reflexivity. }
  discriminate F.
Qed.

(** C7, amended. Every message the page posts, in every run from page load
    and whatever the browser does, is the object with the two fields
    [type], holding the string [ping], and [ts], holding the clock reading
    in milliseconds at the moment of the call. *)
Theorem heartbeat_payload_shape (t0 : Z) (o : outcome) (es : list timed) :
  heartbeat_payloads (fun now => [("type", VStr "ping"); ("ts", VNum now)])
                     (run es (boot t0 o)).
Proof.
  apply (kept_from_boot
           (heartbeat_payloads (fun now => [("type", VStr "ping"); ("ts", VNum now)])));
    unfold heartbeat_payloads.
  - intros t s H. exact H.
  - intros i s H. exact H.
  - intros i d s H. exact H.
  - intros p s H. exact H.
  - intros [|e] s H; [rewrite run_connectSW_succeeds | rewrite run_connectSW_throws];
      cbn [trace]; apply Forall_app; split; try exact H; repeat constructor.
  - intros o' s H. rewrite run_pingTick. destruct (swPort s); [|exact H].
    cbn [trace set_trace]. apply Forall_app. split; [exact H|].
    repeat constructor.
  - intros i s H. rewrite run_onDisconnect. cbn [trace].
    apply Forall_app. split; [exact H | repeat constructor].
  - constructor.
Qed.

(** C9. When the open call throws, [swPort] keeps the value it had before
    the attempt ([null] at page load, the previous port afterwards); the
    listeners, the ports, the clock and the heartbeat timers are untouched,
    and the list of active timers only gains the retry. *)
Theorem failed_open_keeps_swPort (s : state) (e : exn) (t0 : Z) :
  swPort (snd (connectSW (Throws e) s)) = swPort s /\
  swPort (boot t0 (Throws e)) = None /\
  (forall t i, swPort (dispatch (At t (TimerFires i (Throws e))) s) = swPort s) /\
  listeners (snd (connectSW (Throws e) s)) = listeners s /\
  closed (snd (connectSW (Throws e) s)) = closed s /\
  next_port (snd (connectSW (Throws e) s)) = next_port s /\
  clock (snd (connectSW (Throws e) s)) = clock s /\
  uncaught (snd (connectSW (Throws e) s)) = uncaught s /\
  heartbeat_timers (snd (connectSW (Throws e) s)) = heartbeat_timers s /\
  timers (snd (connectSW (Throws e) s)) =
    timers s ++ [Timeout (next_timer s) ConnectSW (clock s + 2000)].
Proof.
  split; [rewrite connectSW_throws; reflexivity|].
  split; [unfold boot; rewrite run_connectSW_throws; reflexivity|].
  split.
  - intros t i. unfold dispatch, fire. cbn [what when timers set_clock].
    destruct (find_timer i (timers s)) as [[j [|] due | j [|] period due]|];
      cbn [callback_body];
      try (rewrite run_pingTick; cbn [swPort set_timers set_clock];
           destruct (swPort s) eqn:E; cbn; congruence);
      try (rewrite run_connectSW_throws; reflexivity).
    reflexivity.
  - rewrite connectSW_throws.
    unfold heartbeat_timers. cbn. rewrite filter_app. cbn. rewrite app_nil_r.
    repeat split; reflexivity.
Qed.

(** C2. In every run from page load in which the browser keeps its
    guarantees, however many disconnections, reconnections and failed
    attempts it contains, there is at most one heartbeat timer and at most
    one pending retry between any two tasks; in fact exactly one of the two
    exists. *)
Theorem no_duplicate_timers (t0 : Z) (o : outcome) (es : list timed) :
  admissible_run (boot t0 o) es = true ->
  (List.length (heartbeat_timers (run es (boot t0 o))) <= 1)%nat /\
  (List.length (pending_retries (run es (boot t0 o))) <= 1)%nat /\
  (List.length (heartbeat_timers (run es (boot t0 o))) +
   List.length (pending_retries (run es (boot t0 o))) = 1)%nat.
Proof.
  intros Ha.
  assert (Hs : steady (run es (boot t0 o))).
  { apply reachable_steady, reachable_run; [apply reach_boot | exact Ha]. }
  unfold heartbeat_timers, pending_retries.
  destruct Hs as [_ [(p & i & due & Ht & _) | (i & due & Ht & _)]];
    rewrite Ht; cbn; repeat split; auto.
Qed.

Lemma no_duplicate_timers_witness :
  admissible_run (boot 0 Succeeds)
    [At 20000 (TimerFires 1%nat Succeeds);
     At 25000 (PortDisconnects 0%nat);
     At 26000 (TimerFires 2%nat (Throws (PlatformError "no service worker")));
     At 28000 (TimerFires 3%nat Succeeds);
     At 48000 (TimerFires 4%nat Succeeds)] = true /\
  (List.length (heartbeat_timers
     (run [At 20000 (TimerFires 1%nat Succeeds);
           At 25000 (PortDisconnects 0%nat);
           At 26000 (TimerFires 2%nat (Throws (PlatformError "no service worker")));
           At 28000 (TimerFires 3%nat Succeeds);
           At 48000 (TimerFires 4%nat Succeeds)] (boot 0 Succeeds))) <= 1)%nat.
Proof.
  split; [reflexivity|].
  apply (no_duplicate_timers 0 Succeeds). reflexivity.
Defined.






Lemma open_port_has_listener (t0 : Z) (o : outcome) (es : list timed) (p : port) (T : Z) :
  admissible (run es (boot t0 o)) (At T (PortDisconnects p)) = true ->
  exists i, In (p, OnDisconnect i) (listeners (run es (boot t0 o))).
Proof.
  intros Ha. unfold admissible in Ha. cbn [what when] in Ha.
  apply andb_prop in Ha. destruct Ha as [_ Ha].
  apply andb_prop in Ha. destruct Ha as [Hlt _]. apply Nat.ltb_lt in Hlt.
  destruct (latest_port_run t0 o es) as [_ Hls].
  assert (Hin : In p (map fst (listeners (run es (boot t0 o))))).
  { rewrite Hls. apply in_seq. split; [apply Nat.le_0_l | exact Hlt]. }
  apply in_map_iff in Hin. destruct Hin as [[q [i]] [Hq Hin]].
  cbn in Hq. subst q. exists i. exact Hin.
Qed.

(** C4. Take a run from page load in which the browser keeps its
    guarantees, and let the disconnect of a port [p] that exists and has not
    been disconnected before be dispatched at time [T].  Then [p] is the open
    link: it is the port in [swPort], a listener is registered on it, and the
    heartbeat timer that listener captured is the one active timer.  The
    listener clears that timer, logs one warning and schedules one timeout of
    1000 ms, in this order; afterwards the only active timer is that timeout,
    with callback [connectSW] and due at [T + 1000].  In every continuation
    of the run no open attempt is made before [T + 1000], and when the
    timeout fires as soon as it is due the open attempt is made at
    [T + 1000]. *)
Theorem retry_after_disconnect
        (t0 : Z) (o : outcome) (es : list timed) (p : port) (T : Z) :
  admissible_run (boot t0 o) es = true ->
  admissible (run es (boot t0 o)) (At T (PortDisconnects p)) = true ->
  exists i,
  In (p, OnDisconnect i) (listeners (run es (boot t0 o))) /\
  swPort (run es (boot t0 o)) = Some p /\
  (exists due, timers (run es (boot t0 o)) = [Interval i PingTick 20000 due]) /\
  find_timer i (timers (dispatch (At T (PortDisconnects p)) (run es (boot t0 o)))) = None /\
  heartbeat_timers (dispatch (At T (PortDisconnects p)) (run es (boot t0 o))) = [] /\
  trace (dispatch (At T (PortDisconnects p)) (run es (boot t0 o))) =
    trace (run es (boot t0 o)) ++
      [(T, ClearInterval i);
       (T, Console Warn "[offscreen] Keepalive port disconnected" None);
       (T, SetTimeout (next_timer (run es (boot t0 o))) 1000)] /\
  timers (dispatch (At T (PortDisconnects p)) (run es (boot t0 o))) =
    [Timeout (next_timer (run es (boot t0 o))) ConnectSW (T + 1000)] /\
  (forall es',
      admissible_run (dispatch (At T (PortDisconnects p)) (run es (boot t0 o))) es' = true ->
      exists d,
        trace (run es' (dispatch (At T (PortDisconnects p)) (run es (boot t0 o)))) =
          trace (dispatch (At T (PortDisconnects p)) (run es (boot t0 o))) ++ d /\
        Forall (not_before (T + 1000)) d) /\
  (forall o',
      admissible (dispatch (At T (PortDisconnects p)) (run es (boot t0 o)))
                 (At (T + 1000) (TimerFires (next_timer (run es (boot t0 o))) o')) = true /\
      punctual (dispatch (At T (PortDisconnects p)) (run es (boot t0 o)))
               (At (T + 1000) (TimerFires (next_timer (run es (boot t0 o))) o')) = true /\
      exists d,
        trace (dispatch (At (T + 1000) (TimerFires (next_timer (run es (boot t0 o))) o'))
                        (dispatch (At T (PortDisconnects p)) (run es (boot t0 o)))) =
          trace (dispatch (At T (PortDisconnects p)) (run es (boot t0 o))) ++
            (T + 1000, Connect "bt-keepalive" o') :: d).
Proof.
  intros Ha HaT.
  destruct (open_port_has_listener t0 o es p T HaT) as [i Hin].
  exists i. split; [exact Hin|].
  set (s := run es (boot t0 o)) in *.
  assert (Hs : steady s).
  { apply reachable_steady, reachable_run; [apply reach_boot | exact Ha]. }
  pose proof (steady_dispatch s _ Hs HaT) as Hs'.
  destruct (link_lost s p i T Hs HaT Hin) as ((due & Ht) & Hp & Hd).
  split; [exact Hp|]. split; [exists due; exact Ht|].
  assert (Hfresh : Nat.eqb (next_timer s) i = false).
  { destruct (well_formed_run t0 o es) as (W1 & _). fold s in W1.
    specialize (W1 (Interval i PingTick 20000 due)). rewrite Ht in W1.
    specialize (W1 (or_introl eq_refl)). cbn in W1.
    apply Nat.eqb_neq. intros F. rewrite F in W1. exact (Nat.lt_irrefl _ W1). }
  rewrite Hd in *.
  split; [cbn; rewrite Hfresh; reflexivity|].
  split; [reflexivity|]. split; [reflexivity|]. split; [reflexivity|].
  split.
  - intros es' Ha'. apply calm_run; [exact Hs' | | exact Ha'].
    split; cbn; [lia|]. intros tm [<- | []] _. cbn. lia.
  - intros o'.
    split; [unfold admissible; cbn; rewrite Nat.eqb_refl; cbn;
            apply andb_true_intro; split; apply Z.leb_le; lia|].
    split; [unfold punctual; cbn; rewrite Nat.eqb_refl; cbn; apply Z.eqb_refl|].
    unfold dispatch, fire. cbn [what when timers set_clock find_timer timer_ident].
    rewrite Nat.eqb_refl. cbn [callback_body remove_timer filter timer_ident].
    rewrite Nat.eqb_refl. cbn [negb].
    destruct o' as [|e']; [rewrite run_connectSW_succeeds | rewrite run_connectSW_throws];
      cbn [trace set_timers set_clock clock]; eexists; reflexivity.
Qed.

Lemma retry_after_disconnect_witness :
  admissible_run (boot 0 Succeeds)
    [At 20000 (TimerFires 1%nat Succeeds); At 25000 (PortDisconnects 0%nat);
     At 26000 (TimerFires 2%nat (Throws (PlatformError "no service worker")));
     At 28000 (TimerFires 3%nat Succeeds); At 48000 (TimerFires 4%nat Succeeds)] = true /\
  admissible
    (run [At 20000 (TimerFires 1%nat Succeeds); At 25000 (PortDisconnects 0%nat);
          At 26000 (TimerFires 2%nat (Throws (PlatformError "no service worker")));
          At 28000 (TimerFires 3%nat Succeeds); At 48000 (TimerFires 4%nat Succeeds)]
         (boot 0 Succeeds))
    (At 65000 (PortDisconnects 1%nat)) = true /\
  exists i,
    In (1%nat, OnDisconnect i)
       (listeners
          (run [At 20000 (TimerFires 1%nat Succeeds); At 25000 (PortDisconnects 0%nat);
                At 26000 (TimerFires 2%nat (Throws (PlatformError "no service worker")));
                At 28000 (TimerFires 3%nat Succeeds); At 48000 (TimerFires 4%nat Succeeds)]
               (boot 0 Succeeds))) /\
    timers
      (dispatch (At 65000 (PortDisconnects 1%nat))
         (run [At 20000 (TimerFires 1%nat Succeeds); At 25000 (PortDisconnects 0%nat);
               At 26000 (TimerFires 2%nat (Throws (PlatformError "no service worker")));
               At 28000 (TimerFires 3%nat Succeeds); At 48000 (TimerFires 4%nat Succeeds)]
              (boot 0 Succeeds))) =
      [Timeout 5%nat ConnectSW 66000].
Proof.
  split; [reflexivity|]. split; [reflexivity|].
  destruct (retry_after_disconnect 0 Succeeds
              [At 20000 (TimerFires 1%nat Succeeds); At 25000 (PortDisconnects 0%nat);
               At 26000 (TimerFires 2%nat (Throws (PlatformError "no service worker")));
               At 28000 (TimerFires 3%nat Succeeds); At 48000 (TimerFires 4%nat Succeeds)]
              1%nat 65000 eq_refl eq_refl)
    as (i & Hin & _ & _ & _ & _ & _ & Ht & _).
  exists i. split; [exact Hin | exact Ht].
Defined.

(** C5. Inside the disconnect listener [clearInterval] runs first: when it
    has completed the captured heartbeat timer is inactive and nothing else
    has been called yet; the warning and the [setTimeout] of the retry come
    after it.  For the open link of a run in which the browser keeps its
    guarantees this leaves no heartbeat timer at all once the listener has
    run, and no continuation of the run posts on the dead port again. *)
Theorem heartbeat_cleared_before_retry
        (t0 : Z) (o : outcome) (es : list timed) (p : port) (i : timer_id) (T : Z) :
  admissible_run (boot t0 o) es = true ->
  admissible (run es (boot t0 o)) (At T (PortDisconnects p)) = true ->
  In (p, OnDisconnect i) (listeners (run es (boot t0 o))) ->
  (forall s0, exists s1,
      clearInterval i s0 = (Normal tt, s1) /\
      find_timer i (timers s1) = None /\
      trace s1 = trace s0 ++ [(clock s0, ClearInterval i)] /\
      onDisconnect i s0 =
        (console Warn "[offscreen] Keepalive port disconnected" None ;;
         setTimeout ConnectSW 1000 ;;
         ret tt) s1 /\
      trace (snd (onDisconnect i s0)) =
        trace s1 ++
          [(clock s0, Console Warn "[offscreen] Keepalive port disconnected" None);
           (clock s0, SetTimeout (next_timer s0) 1000)]) /\
  trace (dispatch (At T (PortDisconnects p)) (run es (boot t0 o))) =
    trace (run es (boot t0 o)) ++
      [(T, ClearInterval i);
       (T, Console Warn "[offscreen] Keepalive port disconnected" None);
       (T, SetTimeout (next_timer (run es (boot t0 o))) 1000)] /\
  heartbeat_timers (dispatch (At T (PortDisconnects p)) (run es (boot t0 o))) = [] /\
  (forall es',
      admissible_run (dispatch (At T (PortDisconnects p)) (run es (boot t0 o))) es' = true ->
      posts_on p (run es' (dispatch (At T (PortDisconnects p)) (run es (boot t0 o)))) =
      posts_on p (run es (boot t0 o))).
Proof.
  intros Ha HaT Hin.
  set (s := run es (boot t0 o)) in *.
  assert (Hs : steady s).
  { apply reachable_steady, reachable_run; [apply reach_boot | exact Ha]. }
  pose proof (steady_dispatch s _ Hs HaT) as Hs'.
  destruct (link_lost s p i T Hs HaT Hin) as (_ & _ & Hd).
  split.
  - intros s0. eexists. split; [reflexivity|]. cbn [timers trace set_timers set_trace].
    split; [apply find_remove_same|]. split; [reflexivity|].
    split; [reflexivity|].
    rewrite onDisconnect_eq. cbn. rewrite <- app_assoc. reflexivity.
  - split; [rewrite Hd; reflexivity|]. split; [rewrite Hd; reflexivity|].
    intros es' Ha'.
    rewrite closed_port_silent; [| exact Hs' | rewrite Hd; left; reflexivity | exact Ha'].
    rewrite Hd. unfold posts_on. cbn [trace]. rewrite posts_on_app. cbn.
    apply app_nil_r.
Qed.

Lemma heartbeat_cleared_before_retry_witness :
  admissible_run (boot 0 Succeeds) [At 20000 (TimerFires 1%nat Succeeds)] = true /\
  admissible (run [At 20000 (TimerFires 1%nat Succeeds)] (boot 0 Succeeds))
             (At 25000 (PortDisconnects 0%nat)) = true /\
  heartbeat_timers
    (dispatch (At 25000 (PortDisconnects 0%nat))
              (run [At 20000 (TimerFires 1%nat Succeeds)] (boot 0 Succeeds))) = [].
Proof.
  split; [reflexivity|]. split; [reflexivity|].
  apply (heartbeat_cleared_before_retry 0 Succeeds
           [At 20000 (TimerFires 1%nat Succeeds)] 0%nat 1%nat 25000).
  - reflexivity.
  - reflexivity.
  - simpl. left. reflexivity.
Defined.

(** ** Disconnect events that come twice, or late *)

Lemma remove_keeps_timeouts (i : timer_id) (ts : list timer) :
  (forall tm, In tm ts -> is_timeout tm = true -> timer_ident tm <> i) ->
  filter is_timeout (remove_timer i ts) = filter is_timeout ts.
Proof.
  unfold remove_timer. induction ts as [|a ts IH]; intros H; cbn; [reflexivity|].
  destruct (Nat.eqb (timer_ident a) i) eqn:E; cbn.
  - destruct (is_timeout a) eqn:K.
    + apply Nat.eqb_eq in E. exfalso. apply (H a); auto. left. reflexivity.
    + apply IH. intros tm Htm. apply H. right. exact Htm.
  - destruct (is_timeout a); [f_equal|]; apply IH; intros tm Htm; apply H; right; exact Htm.
Qed.

Lemma remove_intervals (i : timer_id) (ts : list timer) :
  filter is_interval (remove_timer i ts) = remove_timer i (filter is_interval ts).
Proof.
  unfold remove_timer. induction ts as [|a ts IH]; cbn; [reflexivity|].
  destruct (Nat.eqb (timer_ident a) i) eqn:E; destruct (is_interval a) eqn:K; cbn;
    rewrite ?E, ?K; cbn; [exact IH | exact IH | f_equal; exact IH | exact IH].
Qed.

Lemma well_formed_dispatch (e : timed) (s : state) :
  well_formed s -> well_formed (dispatch e s).
Proof.
  apply (kept_by_dispatch well_formed).
  - intros t s0 W. exact W.
  - apply well_formed_remove.
  - apply well_formed_rearm.
  - intros p s0 W. exact W.
  - apply well_formed_connectSW.
  - apply well_formed_pingTick.
  - apply well_formed_onDisconnect.
Qed.

Lemma listeners_on_owner (p : port) (l : listener) (ls : list (port * listener)) :
  In l (listeners_on p ls) -> In (p, l) ls.
Proof.
  unfold listeners_on. intros H. apply in_map_iff in H.
  destruct H as [[q l'] [Hl H]]. cbn in Hl. subst l'.
  apply filter_In in H. destruct H as [H E]. cbn in E.
  apply Nat.eqb_eq in E. subst q. exact H.
Qed.

Lemma disconnect_single (s : state) (p : port) (i : timer_id) (t : Z) :
  listeners_on p (listeners s) = [OnDisconnect i] ->
  dispatch (At t (PortDisconnects p)) s =
  mkState t (swPort s)
    (remove_timer i (timers s) ++ [Timeout (next_timer s) ConnectSW (t + 1000)])
    (S (next_timer s)) (next_port s) (listeners s) (p :: closed s)
    (trace s ++
       [(t, ClearInterval i);
        (t, Console Warn "[offscreen] Keepalive port disconnected" None);
        (t, SetTimeout (next_timer s) 1000)])
    (uncaught s).
Proof.
  intros Hl. unfold dispatch, disconnect. cbn [what when listeners set_clock].
  rewrite Hl. cbn [run_listeners fold_left listener_body].
  rewrite run_onDisconnect. reflexivity.
Qed.

Lemma repeated_disconnect (ts : list Z) (s : state) (p : port) (i : timer_id) :
  well_formed s ->
  listeners_on p (listeners s) = [OnDisconnect i] ->
  List.length (pending_retries (run (map (fun t => At t (PortDisconnects p)) ts) s)) =
  (List.length (pending_retries s) + List.length ts)%nat.
Proof.
  revert s. induction ts as [|t ts IH]; intros s W Hl.
  - cbn. rewrite Nat.add_0_r. reflexivity.
  - cbn [map]. rewrite run_cons.
    assert (Hin : In (p, OnDisconnect i) (listeners s)).
    { apply listeners_on_owner. rewrite Hl. left. reflexivity. }
    pose proof (well_formed_dispatch (At t (PortDisconnects p)) s W) as W'.
    rewrite (disconnect_single s p i t Hl) in *.
    rewrite IH; [| exact W' | exact Hl].
    unfold pending_retries. cbn [timers]. rewrite filter_app, length_app.
    rewrite remove_keeps_timeouts.
    + cbn. rewrite <- Nat.add_assoc. reflexivity.
    + destruct W as (_ & _ & _ & W4). intros tm Htm Hto F.
      apply (W4 tm (p, OnDisconnect i) Htm Hto Hin). cbn. symmetry. exact F.
Qed.

(** C8, as stated, fails: when the disconnect event of the same port is
    dispatched twice, two retries are pending. *)
Lemma double_disconnect_counterexample :
  pending_retries
    (run [At 65000 (PortDisconnects 0%nat); At 65000 (PortDisconnects 0%nat)]
         (boot 0 Succeeds)) =
    [Timeout 2%nat ConnectSW 66000; Timeout 3%nat ConnectSW 66000] /\
  ~ (List.length
       (pending_retries
          (run [At 65000 (PortDisconnects 0%nat); At 65000 (PortDisconnects 0%nat)]
               (boot 0 Succeeds))) <= 1)%nat.
Proof.
  split; [reflexivity|]. cbn. intros H. inversion H as [|n H']. inversion H'.
Qed.

(** C8, amended. The listener has no guard of its own: in any run from page
    load, whatever the browser does, every dispatch of the disconnect event
    of a link's port schedules one more retry, so [n] dispatches leave [n]
    more pending retries; one dispatch leaves exactly one more. *)
Theorem disconnect_schedules_one_retry_each_time
        (t0 : Z) (o : outcome) (es : list timed)
        (p : port) (i : timer_id) (ts : list Z) :
  listeners_on p (listeners (run es (boot t0 o))) = [OnDisconnect i] ->
  List.length
    (pending_retries
       (run (map (fun t => At t (PortDisconnects p)) ts) (run es (boot t0 o)))) =
  (List.length (pending_retries (run es (boot t0 o))) + List.length ts)%nat.
Proof.
  intros Hl. apply repeated_disconnect with (i := i); [apply well_formed_run | exact Hl].
Qed.

Lemma disconnect_schedules_one_retry_each_time_witness :
  listeners_on 0%nat (listeners (run [] (boot 0 Succeeds))) = [OnDisconnect 1%nat] /\
  List.length
    (pending_retries
       (run (map (fun t => At t (PortDisconnects 0%nat)) [65000; 65001])
            (run [] (boot 0 Succeeds)))) =
  (List.length (pending_retries (run [] (boot 0 Succeeds))) + 2)%nat.
Proof.
  split; [reflexivity|].
  apply (disconnect_schedules_one_retry_each_time 0 Succeeds [] 0%nat 1%nat [65000; 65001]).
  reflexivity.
Defined.

Lemma NoDup_map_inj {A B : Type} (f : A -> B) (l : list A) (x y : A) :
  NoDup (map f l) -> In x l -> In y l -> f x = f y -> x = y.
Proof.
  induction l as [|a l IH]; cbn; intros Hnd Hx Hy Hf; [contradiction|].
  inversion Hnd as [|b m Hnotin Hnd']; subst.
  destruct Hx as [-> | Hx]; destruct Hy as [-> | Hy].
  - reflexivity.
  - exfalso. apply Hnotin. rewrite Hf. apply in_map, Hy.
  - exfalso. apply Hnotin. rewrite <- Hf. apply in_map, Hx.
  - apply IH; assumption.
Qed.

Lemma run_listeners_keeps (ls : list listener) (s : state) (j : timer_id) :
  (j < next_timer s)%nat ->
  (forall l, In l ls -> captured l <> j) ->
  find_timer j (timers (run_listeners ls s)) = find_timer j (timers s).
Proof.
  revert s. induction ls as [|[i] ls IH]; intros s Hj Hls; [reflexivity|].
  cbn [run_listeners fold_left listener_body].
  change (find_timer j (timers (run_listeners ls (run_task (onDisconnect i) s))) =
          find_timer j (timers s)).
  rewrite IH.
  - rewrite run_onDisconnect. cbn [timers]. rewrite find_timer_app.
    rewrite find_remove_other.
    + destruct (find_timer j (timers s)); [reflexivity|]. cbn.
      destruct (Nat.eqb (next_timer s) j) eqn:E; [|reflexivity].
      apply Nat.eqb_eq in E. rewrite E in Hj. exact (False_ind _ (Nat.lt_irrefl _ Hj)).
    + intros F. apply (Hls (OnDisconnect i)); [left; reflexivity | cbn; symmetry; exact F].
  - rewrite run_onDisconnect. cbn. apply Nat.lt_lt_succ_r, Hj.
  - intros l Hl. apply Hls. right. exact Hl.
Qed.

(** C10. The listener clears the handle it captured and no other: after it
    has run, the heartbeat timers are those there were before, less the
    captured one.  So in any run from page load, whatever the browser does,
    when two ports each have a listener, dispatching the disconnect event of
    one leaves the heartbeat timer of the other as it was. *)
Theorem disconnect_clears_own_timer_only
        (t0 : Z) (o : outcome) (es : list timed)
        (p q : port) (i j : timer_id) (t : Z) :
  In (p, OnDisconnect i) (listeners (run es (boot t0 o))) ->
  In (q, OnDisconnect j) (listeners (run es (boot t0 o))) ->
  p <> q ->
  (forall s0, heartbeat_timers (run_task (onDisconnect i) s0) =
              remove_timer i (heartbeat_timers s0)) /\
  i <> j /\
  find_timer j (timers (dispatch (At t (PortDisconnects p)) (run es (boot t0 o)))) =
  find_timer j (timers (run es (boot t0 o))).
Proof.
  intros Hp Hq Hpq.
  destruct (well_formed_run t0 o es) as (W1 & W2 & W3 & W4).
  set (s := run es (boot t0 o)) in *.
  assert (Hinj : forall l, In (p, l) (listeners s) -> captured l <> j).
  { intros l Hl F.
    assert (Heq : (p, l) = (q, OnDisconnect j)).
    { apply (NoDup_map_inj captured_of (listeners s)); [exact W3 | exact Hl | exact Hq |].
      cbn. exact F. }
    injection Heq as Hpq' _. contradiction. }
  split.
  - intros s0. rewrite run_onDisconnect. unfold heartbeat_timers. cbn [timers].
    rewrite filter_app. cbn. rewrite app_nil_r. apply remove_intervals.
  - split; [exact (Hinj (OnDisconnect i) Hp)|].
    unfold dispatch, disconnect. cbn [what when listeners set_clock].
    rewrite run_listeners_keeps.
    + reflexivity.
    + cbn. apply (W2 (q, OnDisconnect j) Hq).
    + intros l Hl. apply Hinj. apply listeners_on_owner. exact Hl.
Qed.

Lemma disconnect_clears_own_timer_only_witness :
  In (0%nat, OnDisconnect 1%nat)
     (listeners (run [At 5000 (PortDisconnects 0%nat); At 6000 (TimerFires 2%nat Succeeds)]
                     (boot 0 Succeeds))) /\
  In (1%nat, OnDisconnect 3%nat)
     (listeners (run [At 5000 (PortDisconnects 0%nat); At 6000 (TimerFires 2%nat Succeeds)]
                     (boot 0 Succeeds))) /\
  find_timer 3%nat
    (timers (dispatch (At 7000 (PortDisconnects 0%nat))
               (run [At 5000 (PortDisconnects 0%nat); At 6000 (TimerFires 2%nat Succeeds)]
                    (boot 0 Succeeds)))) =
  find_timer 3%nat
    (timers (run [At 5000 (PortDisconnects 0%nat); At 6000 (TimerFires 2%nat Succeeds)]
                 (boot 0 Succeeds))).
Proof.
  split; [simpl; left; reflexivity|].
  split; [simpl; right; left; reflexivity|].
  apply (disconnect_clears_own_timer_only 0 Succeeds
           [At 5000 (PortDisconnects 0%nat); At 6000 (TimerFires 2%nat Succeeds)]
           0%nat 1%nat 1%nat 3%nat 7000).
  - simpl. left. reflexivity.
  - simpl. right. left. reflexivity.
  - discriminate.
Defined.

(** ** Further properties of whole runs *)

(** X1. No exception ever escapes to the event loop: in every run from page
    load, whatever the browser answers to [connect] and [postMessage] and
    whatever events it dispatches, the list of uncaught exceptions stays
    empty. *)
Theorem no_uncaught_exception (t0 : Z) (o : outcome) (es : list timed) :
  uncaught (run es (boot t0 o)) = [].
Proof.
  apply (kept_from_boot (fun s => uncaught s = [])).
  - intros t s H. exact H.
  - intros i s H. exact H.
  - intros i d s H. exact H.
  - intros p s H. exact H.
  - intros [|e] s H; [rewrite run_connectSW_succeeds | rewrite run_connectSW_throws]; exact H.
  - intros o' s H. rewrite run_pingTick. destruct (swPort s); exact H.
  - intros i s H. rewrite run_onDisconnect. exact H.
  - reflexivity.
Qed.

(** X2. [swPort] always holds the port opened last: it is [null] exactly as
    long as no open has succeeded, and afterwards the newest port, also while
    that port is dead and retries fail.  The ports that have a listener are
    exactly the ports opened so far, each once, in the order they were
    opened. *)
Theorem swPort_is_latest_port (t0 : Z) (o : outcome) (es : list timed) :
  swPort (run es (boot t0 o)) = latest_port (run es (boot t0 o)) /\
  (swPort (run es (boot t0 o)) = None <-> next_port (run es (boot t0 o)) = 0%nat) /\
  map fst (listeners (run es (boot t0 o))) = seq 0 (next_port (run es (boot t0 o))) /\
  NoDup (map fst (listeners (run es (boot t0 o)))).
Proof.
  destruct (latest_port_run t0 o es) as [H1 H2].
  split; [exact H1|]. split.
  - rewrite H1. unfold latest_port.
    destruct (next_port (run es (boot t0 o))); split; intros H;
      try reflexivity; discriminate H.
  - split; [exact H2|]. rewrite H2. apply seq_NoDup.
Qed.

Lemma find_timer_In (i : timer_id) (ts : list timer) (t : timer) :
  find_timer i ts = Some t -> timer_ident t = i /\ In t ts.
Proof.
  induction ts as [|a ts IH]; cbn; [discriminate|].
  destruct (Nat.eqb (timer_ident a) i) eqn:E.
  - intros H; injection H as <-. apply Nat.eqb_eq in E. auto.
  - intros H. destruct (IH H). auto.
Qed.

Lemma timer_typed_more (s s' : state) (tm : timer) :
  (forall pl, In pl (listeners s) -> In pl (listeners s')) ->
  timer_typed s tm -> timer_typed s' tm.
Proof.
  intros Hls. destruct tm as [i cb due | i cb period due]; cbn; [auto|].
  intros (H1 & H2 & p & Hp). repeat split; try assumption. exists p. apply Hls, Hp.
Qed.

Lemma timers_typed_run (t0 : Z) (o : outcome) (es : list timed) :
  timers_typed (run es (boot t0 o)).
Proof.
  apply (kept_from_boot timers_typed); unfold timers_typed.
  - intros t s H. exact H.
  - intros i s H tm Htm. cbn in Htm. apply remove_In in Htm.
    apply (timer_typed_more s); [auto | apply H, Htm].
  - intros i d s H tm Htm. cbn in Htm. unfold rearm in Htm.
    apply in_map_iff in Htm. destruct Htm as [tm0 [Heq Hin]].
    apply H in Hin. subst tm.
    destruct tm0 as [k cb due | k cb period due]; [exact Hin|].
    destruct (Nat.eqb k i); exact Hin.
  - intros p s H. exact H.
  - intros [|e] s H tm Htm;
      [rewrite run_connectSW_succeeds in * | rewrite run_connectSW_throws in *];
      cbn [timers] in Htm; apply in_app_or in Htm; destruct Htm as [Htm | [<- | []]].
    + apply (timer_typed_more s); [|apply H, Htm].
      intros pl Hpl. cbn. apply in_or_app. left. exact Hpl.
    + cbn. repeat split. exists (next_port s). apply in_or_app. right. left. reflexivity.
    + apply (timer_typed_more s); [auto | apply H, Htm].
    + reflexivity.
  - intros o' s H. destruct (pingTick_frame o' s) as [tr ->]. exact H.
  - intros i s H tm Htm. rewrite run_onDisconnect in *.
    cbn [timers] in Htm. apply in_app_or in Htm. destruct Htm as [Htm | [<- | []]].
    + apply remove_In in Htm. apply (timer_typed_more s); [auto | apply H, Htm].
    + reflexivity.
  - intros tm [].
Qed.

Lemma NoDup_map_filter {A B : Type} (f : A -> B) (g : A -> bool) (l : list A) :
  NoDup (map f l) -> NoDup (map f (filter g l)).
Proof.
  induction l as [|a l IH]; cbn; intros H; [constructor|].
  inversion H as [|b m Hnotin Hnd]; subst.
  destruct (g a); cbn; [|apply IH, Hnd].
  constructor; [|apply IH, Hnd].
  intros Hin. apply Hnotin. apply in_map_iff in Hin. destruct Hin as [x [Hx Hin]].
  apply filter_In in Hin. rewrite <- Hx. apply in_map, Hin.
Qed.

Lemma distinct_append (s : state) (ts : list timer) (tm : timer) :
  NoDup (map timer_ident ts) ->
  (forall x, In x ts -> (timer_ident x < next_timer s)%nat) ->
  timer_ident tm = next_timer s ->
  NoDup (map timer_ident (ts ++ [tm])) /\
  forall x, In x (ts ++ [tm]) -> (timer_ident x < S (next_timer s))%nat.
Proof.
  intros Hnd Hlt Hid. split.
  - rewrite map_app. cbn. apply NoDup_app; [exact Hnd | repeat constructor; intros [] |].
    intros x Hx [Heq | []]. apply in_map_iff in Hx. destruct Hx as [y [Hy Hin]].
    apply Hlt in Hin. rewrite Hy, <- Heq, Hid in Hin. exact (Nat.lt_irrefl _ Hin).
  - intros x Hx. apply in_app_or in Hx. destruct Hx as [Hx | [<- | []]].
    + apply Nat.lt_lt_succ_r, Hlt, Hx.
    + rewrite Hid. apply Nat.lt_succ_diag_r.
Qed.

Lemma distinct_timers_onDisconnect (i : timer_id) (s : state) :
  distinct_timers s -> distinct_timers (run_task (onDisconnect i) s).
Proof.
  intros [Hnd Hlt]. rewrite run_onDisconnect. unfold distinct_timers. cbn.
  apply (distinct_append s).
  - apply NoDup_map_filter, Hnd.
  - intros x Hx. apply remove_In in Hx. apply Hlt, Hx.
  - reflexivity.
Qed.

Lemma distinct_timers_dispatch (e : timed) (s : state) :
  distinct_timers s -> distinct_timers (dispatch e s).
Proof.
  apply (kept_by_dispatch distinct_timers).
  - intros t s0 H. exact H.
  - intros i s0 [Hnd Hlt]. split; cbn.
    + apply NoDup_map_filter, Hnd.
    + intros x Hx. apply remove_In in Hx. apply Hlt, Hx.
  - intros i d s0 [Hnd Hlt]. split; cbn.
    + rewrite rearm_ident. exact Hnd.
    + intros x Hx. apply rearm_In in Hx. destruct Hx as (x0 & Hin & Hid & _).
      rewrite <- Hid. apply Hlt, Hin.
  - intros p s0 H. exact H.
  - intros [|e0] s0 [Hnd Hlt];
      [rewrite run_connectSW_succeeds | rewrite run_connectSW_throws];
      unfold distinct_timers; cbn; apply (distinct_append s0); auto.
  - intros o' s0 H. destruct (pingTick_frame o' s0) as [tr ->]. exact H.
  - apply distinct_timers_onDisconnect.
Qed.

Lemma distinct_timers_boot (t0 : Z) (o : outcome) : distinct_timers (boot t0 o).
Proof.
  unfold boot. destruct o as [|e];
    [rewrite run_connectSW_succeeds | rewrite run_connectSW_throws];
    unfold distinct_timers; cbn; (split; [repeat constructor; intros [] |]);
    intros x [<- | []]; cbn; apply Nat.lt_succ_diag_r.
Qed.

Lemma distinct_timers_run (es : list timed) (s : state) :
  distinct_timers s -> distinct_timers (run es s).
Proof.
  revert s. induction es as [|e es IH]; intros s H; [exact H|].
  rewrite run_cons. apply IH, distinct_timers_dispatch, H.
Qed.

(** X3. Every heartbeat tick posts on the port opened last.  In any run from
    page load, whatever the browser does, when an active interval fires the
    page makes exactly one call, a [postMessage] of the ping stamped with the
    time of the tick, and it makes it on the newest port: the callback reads
    the shared [swPort], not a port of its own. *)
Theorem heartbeat_goes_to_latest_port
        (t0 : Z) (o : outcome) (es : list timed)
        (i j : timer_id) (cb : callback) (period due : Z) (t : Z) (o' : outcome) :
  find_timer i (timers (run es (boot t0 o))) = Some (Interval j cb period due) ->
  exists n,
    next_port (run es (boot t0 o)) = S n /\
    swPort (run es (boot t0 o)) = Some n /\
    trace (dispatch (At t (TimerFires i o')) (run es (boot t0 o))) =
      trace (run es (boot t0 o)) ++ [(t, PostMessage n (ping_message t) o')].
Proof.
  intros Hf.
  destruct (latest_port_run t0 o es) as [Hsw Hls].
  pose proof (timers_typed_run t0 o es) as Hty.
  set (s := run es (boot t0 o)) in *.
  destruct (find_timer_In _ _ _ Hf) as [_ Hin].
  apply Hty in Hin. cbn in Hin. destruct Hin as (-> & -> & p & Hp).
  assert (Hn : exists n, next_port s = S n).
  { destruct (next_port s) as [|n] eqn:E; [|exists n; reflexivity].
    apply (in_map fst) in Hp. rewrite Hls in Hp. cbn in Hp. contradiction. }
  destruct Hn as [n Hn]. exists n. split; [exact Hn|].
  assert (Hsw' : swPort s = Some n).
  { rewrite Hsw. unfold latest_port. rewrite Hn. reflexivity. }
  split; [exact Hsw'|].
  unfold dispatch, fire. cbn [what when timers set_clock]. rewrite Hf.
  cbn [callback_body]. rewrite run_pingTick. cbn [swPort set_timers set_clock].
  rewrite Hsw'. reflexivity.
Qed.

Lemma heartbeat_goes_to_latest_port_witness :
  find_timer 4%nat
    (timers
       (run [At 5000 (PortDisconnects 0%nat); At 5000 (PortDisconnects 0%nat);
          At 6000 (TimerFires 2%nat Succeeds); At 6000 (TimerFires 3%nat Succeeds)]
         (boot 0 Succeeds))) =
    Some (Interval 4%nat PingTick 20000 26000) /\
  In (1%nat, OnDisconnect 4%nat)
    (listeners
       (run [At 5000 (PortDisconnects 0%nat); At 5000 (PortDisconnects 0%nat);
          At 6000 (TimerFires 2%nat Succeeds); At 6000 (TimerFires 3%nat Succeeds)]
         (boot 0 Succeeds))) /\
  exists n,
    next_port
      (run [At 5000 (PortDisconnects 0%nat); At 5000 (PortDisconnects 0%nat);
          At 6000 (TimerFires 2%nat Succeeds); At 6000 (TimerFires 3%nat Succeeds)]
         (boot 0 Succeeds)) = S n /\
    swPort
      (run [At 5000 (PortDisconnects 0%nat); At 5000 (PortDisconnects 0%nat);
          At 6000 (TimerFires 2%nat Succeeds); At 6000 (TimerFires 3%nat Succeeds)]
         (boot 0 Succeeds)) = Some n /\
    trace (dispatch (At 26000 (TimerFires 4%nat Succeeds))
      (run [At 5000 (PortDisconnects 0%nat); At 5000 (PortDisconnects 0%nat);
          At 6000 (TimerFires 2%nat Succeeds); At 6000 (TimerFires 3%nat Succeeds)]
         (boot 0 Succeeds))) =
    trace
      (run [At 5000 (PortDisconnects 0%nat); At 5000 (PortDisconnects 0%nat);
          At 6000 (TimerFires 2%nat Succeeds); At 6000 (TimerFires 3%nat Succeeds)]
         (boot 0 Succeeds)) ++
      [(26000, PostMessage n (ping_message 26000) Succeeds)].
Proof.
  split; [reflexivity|]. split; [simpl; right; left; reflexivity|].
  apply (heartbeat_goes_to_latest_port 0 Succeeds
           [At 5000 (PortDisconnects 0%nat); At 5000 (PortDisconnects 0%nat);
            At 6000 (TimerFires 2%nat Succeeds); At 6000 (TimerFires 3%nat Succeeds)]
           4%nat 4%nat PingTick 20000 26000 26000 Succeeds).
  reflexivity.
Defined.



(** ** The loop never stops, and never drops a retry *)

Lemma remove_timer_length (i : timer_id) (ts : list timer) :
  NoDup (map timer_ident ts) ->
  (List.length ts <= S (List.length (remove_timer i ts)))%nat.
Proof.
  unfold remove_timer. induction ts as [|a ts IH]; cbn; intros Hnd; [apply Nat.le_0_l|].
  inversion Hnd as [|b m Hnotin Hnd']; subst.
  destruct (Nat.eqb (timer_ident a) i) eqn:E; cbn.
  - apply Nat.eqb_eq in E. apply le_n_S.
    assert (Hall : filter (fun t => negb (Nat.eqb (timer_ident t) i)) ts = ts).
    { apply forallb_filter_id. apply forallb_forall. intros x Hx.
      apply negb_true_iff, Nat.eqb_neq. intros F. apply Hnotin.
      rewrite E, <- F. apply in_map, Hx. }
    rewrite Hall. apply Nat.le_refl.
  - apply le_n_S, IH, Hnd'.
Qed.

Lemma callback_timers (cb : callback) (o : outcome) (s : state) :
  exists d, timers (run_task (callback_body cb o) s) = timers s ++ d /\
            (cb = ConnectSW -> List.length d = 1%nat).
Proof.
  destruct cb; cbn [callback_body].
  - destruct (pingTick_frame o s) as [tr ->]. exists []. rewrite app_nil_r.
    split; [reflexivity | discriminate].
  - destruct o as [|e]; [rewrite run_connectSW_succeeds | rewrite run_connectSW_throws];
      cbn [timers]; eexists; split; reflexivity.
Qed.

Lemma fire_timers_length (i : timer_id) (o : outcome) (s : state) :
  timers_typed s -> distinct_timers s ->
  (List.length (timers s) <= List.length (timers (fire i o s)))%nat.
Proof.
  intros Hty [Hnd _]. unfold fire.
  destruct (find_timer i (timers s)) as [[j cb due | j cb period due]|] eqn:Hf;
    [| |apply Nat.le_refl].
  - destruct (find_timer_In _ _ _ Hf) as [_ Hin]. apply Hty in Hin. cbn in Hin. subst cb.
    destruct (callback_timers ConnectSW o (set_timers (remove_timer i (timers s)) s))
      as (d & -> & Hd).
    cbn [timers set_timers]. rewrite length_app, (Hd eq_refl), Nat.add_1_r.
    apply remove_timer_length, Hnd.
  - destruct (callback_timers cb o (set_timers (rearm i (clock s + period) (timers s)) s))
      as (d & -> & _).
    cbn [timers set_timers]. rewrite length_app. unfold rearm. rewrite length_map.
    apply Nat.le_add_r.
Qed.

Lemma run_listeners_timers_length (ls : list listener) (s : state) :
  distinct_timers s ->
  (List.length (timers s) <= List.length (timers (run_listeners ls s)))%nat.
Proof.
  revert s. induction ls as [|[c] ls IH]; intros s Hd; [apply Nat.le_refl|].
  cbn [run_listeners fold_left listener_body].
  change (List.length (timers s) <=
          List.length (timers (run_listeners ls (run_task (onDisconnect c) s))))%nat.
  apply Nat.le_trans with (List.length (timers (run_task (onDisconnect c) s))).
  - rewrite run_onDisconnect. cbn [timers]. rewrite length_app, Nat.add_1_r.
    apply remove_timer_length, Hd.
  - apply IH, distinct_timers_onDisconnect, Hd.
Qed.

Lemma dispatch_timers_length (e : timed) (s : state) :
  timers_typed s -> distinct_timers s ->
  (List.length (timers s) <= List.length (timers (dispatch e s)))%nat.
Proof.
  intros Hty Hd. destruct e as [t [i o | p]]; unfold dispatch; cbn [what when].
  - apply (fire_timers_length i o (set_clock t s)); assumption.
  - unfold disconnect.
    apply (run_listeners_timers_length _ (set_closed (p :: closed (set_clock t s))
                                                     (set_clock t s))).
    exact Hd.
Qed.

(** X5. The loop never stops.  In any run from page load, whatever the
    browser does, at least one timer is active between tasks (a heartbeat or
    a pending retry), and no task leaves fewer active timers than it found:
    a timer that goes is always replaced. *)
Theorem loop_never_stops (t0 : Z) (o : outcome) (es : list timed) :
  (1 <= List.length (timers (run es (boot t0 o))))%nat /\
  (1 <= List.length (heartbeat_timers (run es (boot t0 o))) +
        List.length (pending_retries (run es (boot t0 o))))%nat /\
  forall e,
    (List.length (timers (run es (boot t0 o))) <=
     List.length (timers (dispatch e (run es (boot t0 o)))))%nat.
Proof.
  assert (Hone : (1 <= List.length (timers (run es (boot t0 o))))%nat).
  { assert (Hgen : forall fs s,
               (exists gs, s = run gs (boot t0 o)) ->
               (1 <= List.length (timers s))%nat ->
               (1 <= List.length (timers (run fs s)))%nat).
    { induction fs as [|e fs IH]; intros s [gs ->] H1; [exact H1|].
      rewrite run_cons. apply IH.
      - exists (gs ++ [e]). unfold run. rewrite fold_left_app. reflexivity.
      - apply Nat.le_trans with (List.length (timers (run gs (boot t0 o)))); [exact H1|].
        apply dispatch_timers_length;
          [apply timers_typed_run | apply distinct_timers_run, distinct_timers_boot]. }
    apply Hgen; [exists []; reflexivity|].
    unfold boot. destruct o as [|e];
      [rewrite run_connectSW_succeeds | rewrite run_connectSW_throws]; cbn; apply Nat.le_refl. }
  split; [exact Hone|]. split.
  - unfold heartbeat_timers, pending_retries.
    assert (Hsplit : forall ts,
               (List.length (filter is_interval ts) + List.length (filter is_timeout ts) =
                List.length ts)%nat).
    { induction ts as [|[k cb due | k cb period due] ts IH]; cbn; [reflexivity| |];
        [rewrite Nat.add_succ_r | ]; rewrite IH; reflexivity. }
    rewrite Hsplit. exact Hone.
  - intros e. apply dispatch_timers_length;
      [apply timers_typed_run | apply distinct_timers_run, distinct_timers_boot].
Qed.

Lemma run_listeners_keep_retry (ls : list listener) (s : state) (tm : timer) :
  well_formed s ->
  (forall l, In l ls -> exists p, In (p, l) (listeners s)) ->
  In tm (timers s) -> is_timeout tm = true ->
  In tm (timers (run_listeners ls s)).
Proof.
  revert s. induction ls as [|[c] ls IH]; intros s W Hls Hin Hto; [exact Hin|].
  cbn [run_listeners fold_left listener_body].
  change (In tm (timers (run_listeners ls (run_task (onDisconnect c) s)))).
  destruct (Hls (OnDisconnect c) (or_introl eq_refl)) as [p Hp].
  assert (Hne : c <> timer_ident tm).
  { destruct W as (_ & _ & _ & W4). apply (W4 tm (p, OnDisconnect c)); assumption. }
  apply IH.
  - apply well_formed_onDisconnect, W.
  - intros l Hl. rewrite run_onDisconnect. cbn [listeners]. apply Hls. right. exact Hl.
  - rewrite run_onDisconnect. cbn [timers]. apply in_or_app. left.
    unfold remove_timer. apply filter_In. split; [exact Hin|].
    apply negb_true_iff, Nat.eqb_neq. intros F. apply Hne. symmetry. exact F.
  - exact Hto.
Qed.

(** X6. A pending retry is never cancelled.  In any run from page load,
    whatever the browser does, a retry that is pending stays pending, with
    the same due time, through every task except the one in which it fires;
    in particular the [clearInterval] of a disconnect listener never hits
    it. *)
Theorem pending_retry_is_never_cancelled
        (t0 : Z) (o : outcome) (es : list timed) (e : timed) (tm : timer) :
  In tm (pending_retries (run es (boot t0 o))) ->
  (forall o', what e <> TimerFires (timer_ident tm) o') ->
  In tm (pending_retries (dispatch e (run es (boot t0 o)))).
Proof.
  intros Hin Hne.
  pose proof (well_formed_run t0 o es) as W.
  set (s := run es (boot t0 o)) in *.
  unfold pending_retries in *. apply filter_In in Hin. destruct Hin as [Hin Hto].
  apply filter_In. split; [|exact Hto].
  destruct e as [t [i o' | p]]; unfold dispatch; cbn [what when] in *.
  - assert (Hi : timer_ident tm <> i).
    { intros F. apply (Hne o'). rewrite F. reflexivity. }
    unfold fire. cbn [timers set_clock].
    destruct (find_timer i (timers s)) as [[j cb due | j cb period due]|]; [| |exact Hin].
    + destruct (callback_timers cb o' (set_timers (remove_timer i (timers s)) (set_clock t s)))
        as (d & -> & _).
      cbn [timers set_timers]. apply in_or_app. left.
      unfold remove_timer. apply filter_In. split; [exact Hin|].
      apply negb_true_iff, Nat.eqb_neq, Hi.
    + destruct (callback_timers cb o'
                  (set_timers (rearm i (clock (set_clock t s) + period) (timers s))
                              (set_clock t s))) as (d & -> & _).
      cbn [timers set_timers]. apply in_or_app. left.
      unfold rearm. apply in_map_iff. exists tm. split; [|exact Hin].
      destruct tm; [reflexivity | discriminate Hto].
  - unfold disconnect. apply run_listeners_keep_retry; [exact W | | exact Hin | exact Hto].
    intros l Hl. exists p. cbn [listeners set_closed set_clock] in *.
    apply listeners_on_owner, Hl.
Qed.

Lemma pending_retry_is_never_cancelled_witness :
  In (Timeout 2%nat ConnectSW 6000)
     (pending_retries (run [At 5000 (PortDisconnects 0%nat)] (boot 0 Succeeds))) /\
  In (Timeout 2%nat ConnectSW 6000)
     (pending_retries (dispatch (At 5500 (PortDisconnects 0%nat))
                                (run [At 5000 (PortDisconnects 0%nat)] (boot 0 Succeeds)))).
Proof.
  split; [simpl; left; reflexivity|].
  apply (pending_retry_is_never_cancelled 0 Succeeds [At 5000 (PortDisconnects 0%nat)]
           (At 5500 (PortDisconnects 0%nat)) (Timeout 2%nat ConnectSW 6000)).
  - simpl. left. reflexivity.
  - intros o'. discriminate.
Defined.

(** ** Retries that keep failing *)

Lemma steady_timeout (s : state) (i j : timer_id) (cb : callback) (due : Z) :
  steady s ->
  find_timer i (timers s) = Some (Timeout j cb due) ->
  j = i /\ cb = ConnectSW /\ timers s = [Timeout i ConnectSW due].
Proof.
  intros [_ [(p & i0 & due0 & Ht & Hp & Hl) | (i0 & due0 & Ht & Hl)]] Hf;
    rewrite Ht in Hf; cbn in Hf; destruct (Nat.eqb i0 i) eqn:E; try discriminate.
  apply Nat.eqb_eq in E. subst i0. injection Hf as <- <- <-.
  repeat split. exact Ht.
Qed.

Lemma retry_fails_once (s : state) (i : timer_id) (due t : Z) (e : exn) :
  timers s = [Timeout i ConnectSW due] ->
  dispatch (At t (TimerFires i (Throws e))) s =
  mkState t (swPort s) [Timeout (next_timer s) ConnectSW (t + 2000)]
    (S (next_timer s)) (next_port s) (listeners s) (closed s)
    (trace s ++
       [(t, Connect "bt-keepalive" (Throws e));
        (t, Console Error "[offscreen] Failed to connect to SW" (Some e));
        (t, SetTimeout (next_timer s) 2000)])
    (uncaught s).
Proof.
  intros Ht. unfold dispatch, fire. cbn [what when timers set_clock].
  rewrite Ht. cbn [find_timer timer_ident]. rewrite Nat.eqb_refl.
  cbn [callback_body remove_timer filter timer_ident]. rewrite Nat.eqb_refl. cbn [negb].
  rewrite run_connectSW_throws. reflexivity.
Qed.

Lemma retries_run (errs : list exn) (s : state) (i : timer_id) (due : Z) :
  timers s = [Timeout i ConnectSW due] ->
  clock s <= due ->
  admissible_run s (retry_events i (next_timer s) due errs) = true /\
  punctual_run s (retry_events i (next_timer s) due errs) = true /\
  trace (run (retry_events i (next_timer s) due errs) s) =
    trace s ++ retry_calls (next_timer s) due errs /\
  (exists k,
      pending_retries (run (retry_events i (next_timer s) due errs) s) =
      [Timeout k ConnectSW (due + 2000 * Z.of_nat (List.length errs))]) /\
  heartbeat_timers (run (retry_events i (next_timer s) due errs) s) = [] /\
  swPort (run (retry_events i (next_timer s) due errs) s) = swPort s.
Proof.
  revert s i due. induction errs as [|e errs IH]; intros s i due Ht Hclk.
  - cbn. unfold pending_retries, heartbeat_timers. rewrite Ht, app_nil_r, Z.add_0_r.
    cbn. repeat split; try reflexivity. exists i. reflexivity.
  - cbn [retry_events retry_calls admissible_run punctual_run List.length].
    rewrite run_cons.
    assert (Ha : admissible s (At due (TimerFires i (Throws e))) = true).
    { unfold admissible. cbn [what when]. rewrite Ht. cbn. rewrite Nat.eqb_refl.
      cbn. apply andb_true_intro. split; apply Z.leb_le; lia. }
    assert (Hpu : punctual s (At due (TimerFires i (Throws e))) = true).
    { unfold punctual. cbn [what when]. rewrite Ht. cbn. rewrite Nat.eqb_refl.
      cbn. apply Z.eqb_refl. }
    rewrite Ha, Hpu. rewrite (retry_fails_once s i due due e Ht).
    set (s1 := mkState due (swPort s) [Timeout (next_timer s) ConnectSW (due + 2000)]
                 (S (next_timer s)) (next_port s) (listeners s) (closed s)
                 (trace s ++
                    [(due, Connect "bt-keepalive" (Throws e));
                     (due, Console Error "[offscreen] Failed to connect to SW" (Some e));
                     (due, SetTimeout (next_timer s) 2000)])
                 (uncaught s)).
    destruct (IH s1 (next_timer s) (due + 2000) eq_refl)
      as (I1 & I2 & I3 & (k & I4) & I5 & I6); [cbn; lia|].
    change (next_timer s1) with (S (next_timer s)) in *.
    split; [exact I1|]. split; [exact I2|].
    split; [rewrite I3; cbn [trace s1]; rewrite <- app_assoc; reflexivity|].
    split; [|split; [exact I5 | exact I6]].
    exists k. rewrite I4. do 2 f_equal. lia.
Qed.

(** X7. Retries that keep failing come at a fixed pace, with no back-off.
    Take a run from page load in which the browser keeps its guarantees and
    that ends with a retry pending and not overdue.  Its callback is
    [connectSW].  If the open throws each of the next [n] times, and every
    retry fires as soon as it is due, the k-th attempt is made exactly
    2000 k ms after the first, each attempt logs one error and schedules one
    new retry, no heartbeat timer is ever created, [swPort] keeps its value,
    and one retry is pending at the end, due 2000 n ms after the first. *)
Theorem failing_retries_keep_pace
        (t0 : Z) (o : outcome) (es : list timed)
        (i : timer_id) (cb : callback) (due : Z) (errs : list exn) :
  admissible_run (boot t0 o) es = true ->
  find_timer i (timers (run es (boot t0 o))) = Some (Timeout i cb due) ->
  clock (run es (boot t0 o)) <= due ->
  cb = ConnectSW /\
  admissible_run (run es (boot t0 o))
    (retry_events i (next_timer (run es (boot t0 o))) due errs) = true /\
  punctual_run (run es (boot t0 o))
    (retry_events i (next_timer (run es (boot t0 o))) due errs) = true /\
  trace (run (retry_events i (next_timer (run es (boot t0 o))) due errs)
             (run es (boot t0 o))) =
    trace (run es (boot t0 o)) ++
      retry_calls (next_timer (run es (boot t0 o))) due errs /\
  (exists k,
      pending_retries (run (retry_events i (next_timer (run es (boot t0 o))) due errs)
                           (run es (boot t0 o))) =
      [Timeout k ConnectSW (due + 2000 * Z.of_nat (List.length errs))]) /\
  heartbeat_timers (run (retry_events i (next_timer (run es (boot t0 o))) due errs)
                        (run es (boot t0 o))) = [] /\
  swPort (run (retry_events i (next_timer (run es (boot t0 o))) due errs)
              (run es (boot t0 o))) = swPort (run es (boot t0 o)).
Proof.
  intros Ha Hf Hclk.
  set (s := run es (boot t0 o)) in *.
  assert (Hs : steady s).
  { apply reachable_steady, reachable_run; [apply reach_boot | exact Ha]. }
  destruct (steady_timeout s i i cb due Hs Hf) as (_ & -> & Ht).
  destruct (retries_run errs s i due Ht Hclk) as (R1 & R2 & R3 & R4 & R5 & R6).
  split; [reflexivity|]. split; [exact R1|]. split; [exact R2|]. split; [exact R3|].
  split; [exact R4|]. split; [exact R5 | exact R6].
Qed.

Lemma failing_retries_keep_pace_witness :
  admissible_run (boot 0 Succeeds) [At 65000 (PortDisconnects 0%nat)] = true /\
  find_timer 2%nat (timers (run [At 65000 (PortDisconnects 0%nat)] (boot 0 Succeeds))) =
    Some (Timeout 2%nat ConnectSW 66000) /\
  clock (run [At 65000 (PortDisconnects 0%nat)] (boot 0 Succeeds)) <= 66000 /\
  trace (run (retry_events 2%nat
                (next_timer (run [At 65000 (PortDisconnects 0%nat)] (boot 0 Succeeds)))
                66000 [PlatformError "a"; PlatformError "b"; PlatformError "c"])
             (run [At 65000 (PortDisconnects 0%nat)] (boot 0 Succeeds))) =
    trace (run [At 65000 (PortDisconnects 0%nat)] (boot 0 Succeeds)) ++
      retry_calls (next_timer (run [At 65000 (PortDisconnects 0%nat)] (boot 0 Succeeds)))
                  66000 [PlatformError "a"; PlatformError "b"; PlatformError "c"].
Proof.
  split; [reflexivity|]. split; [reflexivity|]. split; [cbn; lia|].
  assert (Hc : clock (run [At 65000 (PortDisconnects 0%nat)] (boot 0 Succeeds)) <= 66000)
    by (cbn; lia).
  destruct (failing_retries_keep_pace 0 Succeeds [At 65000 (PortDisconnects 0%nat)]
              2%nat ConnectSW 66000
              [PlatformError "a"; PlatformError "b"; PlatformError "c"]
              eq_refl eq_refl Hc) as (_ & _ & _ & H & _).
  exact H.
Defined.

(** ** Counting the calls of a run *)

Lemma count_calls_app (f : call -> bool) (tr d : list (Z * call)) :
  List.length (filter (fun c => f (snd c)) (tr ++ d)) =
  (List.length (filter (fun c => f (snd c)) tr) +
   List.length (filter (fun c => f (snd c)) d))%nat.
Proof. rewrite filter_app. apply length_app. Qed.

Lemma transition_attempts (s s' : state) (e : timed) :
  transition s e s' ->
  (count_calls any_connect s + List.length (pending_retries s) =
   1 + count_calls made_timeout s)%nat ->
  (count_calls any_connect s' + List.length (pending_retries s') =
   1 + count_calls made_timeout s')%nat.
Proof.
  intros Htr. unfold count_calls, pending_retries.
  destruct Htr as [p0 i due t o Ht Hsw Hl Hdue | j t o Hf | i due t Ht Hl Hdue
                  | i due t e0 Ht Hl Hdue | p0 i due t Ht Hsw Hl | p0 t Hno];
    cbn [trace timers set_clock set_closed]; rewrite ?count_calls_app, ?Ht; cbn; lia.
Qed.

(** X8. Open attempts and retries balance.  In every run from page load in
    which the browser keeps its guarantees, the number of calls of
    [chrome.runtime.connect] plus the number of retries still pending is one
    more than the number of [setTimeout] calls: apart from the attempt made
    at page load, every attempt is a retry that fired, and every retry that
    is no longer pending made exactly one attempt. *)
Theorem open_attempts_match_retries (t0 : Z) (o : outcome) (es : list timed) :
  admissible_run (boot t0 o) es = true ->
  (count_calls any_connect (run es (boot t0 o)) +
   List.length (pending_retries (run es (boot t0 o))) =
   1 + count_calls made_timeout (run es (boot t0 o)))%nat.
Proof.
  assert (Hgen : forall fs s,
             steady s ->
             (count_calls any_connect s + List.length (pending_retries s) =
              1 + count_calls made_timeout s)%nat ->
             admissible_run s fs = true ->
             (count_calls any_connect (run fs s) + List.length (pending_retries (run fs s)) =
              1 + count_calls made_timeout (run fs s))%nat).
  { induction fs as [|e fs IH]; intros s Hs H Ha; [exact H|].
    rewrite run_cons. cbn [admissible_run] in Ha.
    apply andb_prop in Ha. destruct Ha as [He Hfs].
    apply IH; [apply steady_dispatch; assumption | | exact Hfs].
    apply (transition_attempts s _ e); [apply dispatch_transition; assumption | exact H]. }
  intros Ha. apply Hgen; [apply steady_boot | | exact Ha].
  unfold boot. destruct o as [|e];
    [rewrite run_connectSW_succeeds | rewrite run_connectSW_throws]; reflexivity.
Qed.

Lemma open_attempts_match_retries_witness :
  admissible_run (boot 0 (Throws (PlatformError "no service worker")))
    [At 2000 (TimerFires 1%nat (Throws (PlatformError "no service worker")));
     At 4000 (TimerFires 2%nat Succeeds);
     At 24000 (TimerFires 3%nat Succeeds);
     At 30000 (PortDisconnects 0%nat)] = true /\
  (count_calls any_connect
     (run [At 2000 (TimerFires 1%nat (Throws (PlatformError "no service worker")));
           At 4000 (TimerFires 2%nat Succeeds);
           At 24000 (TimerFires 3%nat Succeeds);
           At 30000 (PortDisconnects 0%nat)]
          (boot 0 (Throws (PlatformError "no service worker")))) +
   List.length (pending_retries
     (run [At 2000 (TimerFires 1%nat (Throws (PlatformError "no service worker")));
           At 4000 (TimerFires 2%nat Succeeds);
           At 24000 (TimerFires 3%nat Succeeds);
           At 30000 (PortDisconnects 0%nat)]
          (boot 0 (Throws (PlatformError "no service worker"))))) =
   1 + count_calls made_timeout
     (run [At 2000 (TimerFires 1%nat (Throws (PlatformError "no service worker")));
           At 4000 (TimerFires 2%nat Succeeds);
           At 24000 (TimerFires 3%nat Succeeds);
           At 30000 (PortDisconnects 0%nat)]
          (boot 0 (Throws (PlatformError "no service worker")))))%nat.
Proof.
  split; [reflexivity|].
  apply (open_attempts_match_retries 0 (Throws (PlatformError "no service worker"))).
  reflexivity.
Defined.

Lemma bookkeeping_run (t0 : Z) (o : outcome) (es : list timed) :
  bookkeeping (run es (boot t0 o)).
Proof.
  apply (kept_from_boot bookkeeping); unfold bookkeeping, count_calls, connect_names.
  - intros t s H. exact H.
  - intros i s H. exact H.
  - intros i d s H. exact H.
  - intros p s H. exact H.
  - intros [|e] s (H1 & H2 & H3 & H4 & H5 & H6 & H7 & H8 & H9 & H10);
      [rewrite run_connectSW_succeeds | rewrite run_connectSW_throws];
      cbn [trace next_port listeners]; rewrite ?count_calls_app, ?length_app;
      cbn [filter snd connect_succeeded connect_failed logged level_eqb made_interval
           added_listener cleared_interval made_timeout_of Z.eqb Pos.eqb List.length];
      rewrite ?Nat.add_0_r, ?Nat.add_1_r, ?H1, ?H2, ?H3, ?H4, ?H5, ?H6, ?H7;
      (repeat split; try assumption; try reflexivity);
      apply Forall_app; (split; [exact H10 | repeat constructor]).
  - intros o' s (H1 & H2 & H3 & H4 & H5 & H6 & H7 & H8 & H9 & H10).
    rewrite run_pingTick. destruct (swPort s) as [p|];
      [|repeat split; assumption].
    cbn [trace set_trace next_port listeners]. rewrite ?count_calls_app.
    cbn [filter snd connect_succeeded connect_failed logged level_eqb made_interval
         added_listener cleared_interval made_timeout_of List.length].
    rewrite ?Nat.add_0_r.
    repeat split; try assumption.
    apply Forall_app. split; [exact H10 | repeat constructor].
  - intros i s (H1 & H2 & H3 & H4 & H5 & H6 & H7 & H8 & H9 & H10).
    rewrite run_onDisconnect.
    cbn [trace next_port listeners]. rewrite ?count_calls_app.
    cbn [filter snd connect_succeeded connect_failed logged level_eqb made_interval
         added_listener cleared_interval made_timeout_of Z.eqb Pos.eqb List.length].
    rewrite ?Nat.add_0_r, ?Nat.add_1_r, ?H8, ?H9.
    repeat split; try assumption; try reflexivity.
    apply Forall_app. split; [exact H10 | repeat constructor].
  - cbn. repeat split; try reflexivity. constructor.
Qed.

(** X9. The console and the browser objects keep count of the lifecycle.
    In any run from page load, whatever the browser does: the number of
    ports opened equals the number of successful opens, of info lines, of
    intervals created and of listeners registered (one of each per link);
    the failed opens, the error lines and the 2000 ms timeouts are equally
    many; the [clearInterval] calls, the warning lines and the 1000 ms
    timeouts are equally many; and every open asks for the port named
    [bt-keepalive]. *)
Theorem calls_follow_the_lifecycle (t0 : Z) (o : outcome) (es : list timed) :
  count_calls connect_succeeded (run es (boot t0 o)) = next_port (run es (boot t0 o)) /\
  count_calls (logged Log) (run es (boot t0 o)) = next_port (run es (boot t0 o)) /\
  count_calls made_interval (run es (boot t0 o)) = next_port (run es (boot t0 o)) /\
  count_calls added_listener (run es (boot t0 o)) = next_port (run es (boot t0 o)) /\
  List.length (listeners (run es (boot t0 o))) = next_port (run es (boot t0 o)) /\
  count_calls (logged Error) (run es (boot t0 o)) =
    count_calls connect_failed (run es (boot t0 o)) /\
  count_calls (made_timeout_of 2000) (run es (boot t0 o)) =
    count_calls connect_failed (run es (boot t0 o)) /\
  count_calls (logged Warn) (run es (boot t0 o)) =
    count_calls cleared_interval (run es (boot t0 o)) /\
  count_calls (made_timeout_of 1000) (run es (boot t0 o)) =
    count_calls cleared_interval (run es (boot t0 o)) /\
  connect_names (run es (boot t0 o)).
Proof. exact (bookkeeping_run t0 o es). Qed.
